(** * cvefeed-rss: a model of [cve_rss_monitor.py] and its properties

    The script polls a syndication feed, writes each non-empty pull as a
    numbered Markdown report under [data/], keeps the pull counter in
    [data/state.json], and mails the reports of the day once a day.

    The development follows the source file top-down: Python values and
    exceptions, the pattern used to clean descriptions, the clock and file
    names, the world the monitor acts on, then the methods of [CVEMonitor]
    in the order of the source, and finally the properties. *)

From Stdlib Require Import ZArith Ascii String List Lia.
From Stdlib Require Import DecimalString DecimalPos DecimalZ.
From Stdlib Require Import PrimFloat FloatOps SpecFloat.
From stdpp Require Import gmap strings list fin_maps sorting.
From Equations Require Import Equations.
From Equations.Prop Require Import Logic.
Import ListNotations.
Open Scope string_scope.
Set Warnings "-register-all".

(** ** Python values

    What [json.load] can return.  A JSON object becomes a [dict]; [JObj]
    lists its items, and a lookup takes the first binding of a key.  A JSON
    number without fraction and exponent becomes an [int], any other one a
    [float], which is a binary64 number. *)

Inductive json : Type :=
| JNull
| JBool (b : bool)
| JInt (z : Z)
| JFloat (f : float)
| JStr (s : string)
| JArr (l : list json)
| JObj (kv : list (string * json)).

(** [bool(v)]: [None], [False], [0], [0.0], [""], [[]] and [{}] are false. *)
Definition truthy (v : json) : bool :=
  match v with
  | JNull => false
  | JBool b => b
  | JInt z => negb (z =? 0)%Z
  | JFloat f => negb (PrimFloat.eqb f 0%float)
  | JStr s => negb (String.eqb s "")
  | JArr l => match l with [] => false | _ => true end
  | JObj kv => match kv with [] => false | _ => true end
  end.

(** [f == n] for a float and an integer, which Python compares by their
    exact values: [m * 2^e] against [n]. *)
Definition float_eq_int (f : float) (n : Z) : bool :=
  match Prim2SF f with
  | S754_zero _ => (n =? 0)%Z
  | S754_finite s m e =>
      let v := if s then Zneg m else Zpos m in
      if (0 <=? e)%Z then (v * 2 ^ e =? n)%Z
      else (v =? n * 2 ^ (- e))%Z
  | _ => false
  end.

(** [v == n] for an integer literal [n]; [True == 1] and [False == 0]. *)
Definition py_eq_int (v : json) (n : Z) : bool :=
  match v with
  | JInt z => (z =? n)%Z
  | JBool b => ((if b then 1 else 0) =? n)%Z
  | JFloat f => float_eq_int f n
  | _ => false
  end.

Fixpoint dict_get (kv : list (string * json)) (k : string) : option json :=
  match kv with
  | [] => None
  | (k', v) :: r => if String.eqb k' k then Some v else dict_get r k
  end.

(** ** Exceptions

    [KeyboardInterrupt] stands for the exceptions that are not subclasses of
    [Exception]; [except Exception] does not catch them. *)

Inductive exn : Type :=
| FileNotFoundError
| JSONDecodeError
| AttributeError
| TypeError
| KeyError
| OSError
| URLError
| SAXParseException
| SMTPException
| UnicodeDecodeError
| RecursionError
| IsADirectoryError
| HeaderParseError
| KeyboardInterrupt.

Definition is_Exception (e : exn) : bool :=
  match e with
  | KeyboardInterrupt => false
  | _ => true
  end.

Inductive outcome (A : Type) : Type :=
| Ret (a : A)
| Raise (e : exn).
Arguments Ret {A} a.
Arguments Raise {A} e.

(** [v[k]] for a string key [k]: only a dict can be indexed by a string. *)
Definition subscript (v : json) (k : string) : outcome json :=
  match v with
  | JObj kv => match dict_get kv k with
               | Some x => Ret x
               | None => Raise KeyError
               end
  | _ => Raise TypeError
  end.

(** [v.get(k, d)]: only a dict has the method. *)
Definition get_method (v : json) (k : string) (d : json) : outcome json :=
  match v with
  | JObj kv => Ret (default d (dict_get kv k))
  | _ => Raise AttributeError
  end.

(** ** The pattern [<[^<]+?>]

    [re.sub('<[^<]+?>', '', description)] scans the text from the left.  At a
    position it looks for a match: a [<], then at least one character other
    than [<], as few as possible, then a [>].  A match is removed and the scan
    goes on behind it; where there is none, the character is kept and the
    scan moves one character on. *)

Definition is_lt (c : ascii) : bool := Ascii.eqb c "<"%char.
Definition is_gt (c : ascii) : bool := Ascii.eqb c ">"%char.

(** The lazy tail [[^<]*?>]: the text behind the first [>], unless a [<] or
    the end of the text comes first. *)
Fixpoint tag_close (s : list ascii) : option (list ascii) :=
  match s with
  | [] => None
  | c :: r => if is_gt c then Some r
              else if is_lt c then None
              else tag_close r
  end.

(** A match at the head of [s], and the text behind it.  The first character
    after [<] is taken by [[^<]] whatever it is, also a [>]. *)
Definition tag_match (s : list ascii) : option (list ascii) :=
  match s with
  | c0 :: c1 :: r => if is_lt c0 && negb (is_lt c1) then tag_close r else None
  | _ => None
  end.

Equations? strip (s : list ascii) : list ascii by wf (length s) lt :=
  strip [] := [];
  strip (c :: r) with inspect (tag_match (c :: r)) => {
    | exist _ (Some rest) H := strip rest;
    | exist _ None _ := c :: strip r }.
Proof.
  assert (Hclose : forall t u, tag_close t = Some u -> (length u < length t)%nat).
  { induction t as [|d t IH]; simpl; [discriminate|].
    destruct (is_gt d); [intros u [= ->]; lia|].
    destruct (is_lt d); [discriminate|].
    intros u Hu. apply IH in Hu. lia. }
  destruct r as [|c1 r]; [discriminate|].
  destruct (is_lt c && negb (is_lt c1)); [|discriminate].
  apply Hclose in H. simpl. lia.
Qed.

Definition re_sub_tags (s : string) : string :=
  string_of_list_ascii (strip (list_ascii_of_string s)).

(** ** Clock readings and file names

    [datetime.now(timezone.utc)], read once per report.  [strftime] prints
    the year as it is, four digits for any current date, and pads the other
    fields to two digits. *)

Record utc : Type := mk_utc {
  year : nat; month : nat; day : nat;
  hour : nat; minute : nat; second : nat }.

Definition str_nat (n : nat) : string := NilZero.string_of_uint (Nat.to_uint n).

(** [str(z)] for a Python integer. *)
Definition str_int (z : Z) : string := NilZero.string_of_int (Z.to_int z).

Fixpoint zeros (n : nat) : string :=
  match n with
  | O => ""
  | S n => String "0" (zeros n)
  end.

Definition zfill (w : nat) (s : string) : string :=
  zeros (w - String.length s) ++ s.

(** [strftime("%Y-%m-%d")] and [strftime("%H%M%S")]. *)
Definition date_str (t : utc) : string :=
  str_nat (year t) ++ "-" ++ zfill 2 (str_nat (month t))
    ++ "-" ++ zfill 2 (str_nat (day t)).

Definition time_str (t : utc) : string :=
  zfill 2 (str_nat (hour t)) ++ zfill 2 (str_nat (minute t))
    ++ zfill 2 (str_nat (second t)).

(** *** Floats as text

    [str] of a float is its [repr]: the shortest decimal that reads back as
    the same float, written with an exponent when the decimal point would
    lie more than 16 places right or more than 4 places left of the first
    digit, and with [.0] added to a whole number.  The value of a finite
    float is [m * 2^e]; the computation is on integers. *)

Definition pow2 (k : Z) : Z := 2 ^ Z.max k 0.
Definition pow10 (k : Z) : Z := 10 ^ Z.max k 0.

(** [scale_num x ex p] and [scale_den ex p]: the numerator and the
    denominator of [x * 2^ex / 10^p] as integers. *)
Definition scale_num (x ex p : Z) : Z := x * pow2 ex * pow10 (- p).
Definition scale_den (ex p : Z) : Z := pow2 (- ex) * pow10 p.

(** The place of the decimal point of a positive value [vn * 2^ex]: the
    least [d] with [vn * 2^ex < 10^d], searched upwards from an estimate. *)
Fixpoint decpt_from (fuel : nat) (vn ex d : Z) : Z :=
  match fuel with
  | O => d
  | S fuel => if (scale_num vn ex d <? scale_den ex d)%Z then d
              else decpt_from fuel vn ex (d + 1)
  end.

Definition decpt (vn ex : Z) : Z :=
  decpt_from 8 vn ex ((Z.log2 vn + ex) * 30103 / 100000 - 1)%Z.

(** The shortest run of digits that reads back as the float [m * 2^e]: for
    1, 2, ... digits, the two decimals of that many digits next to the value
    are tried; one that lies between the midpoints to the neighbouring
    floats is taken, the closer one when both do. *)
Fixpoint shortest (fuel : nat) (m e dp : Z) (n : Z) : Z * Z :=
  let ex := (e - 2)%Z in
  let vn := (4 * m)%Z in
  let hn := (4 * m + 2)%Z in
  let ln := if ((m =? 2 ^ 52) && (-1074 <? e))%Z%bool then (4 * m - 1)%Z
            else (4 * m - 2)%Z in
  let p := (dp - n)%Z in
  let den := scale_den ex p in
  let num := scale_num vn ex p in
  let lo := (num / den)%Z in
  let r := (num mod den)%Z in
  let inside (d : Z) :=
    if Z.even m
    then ((scale_num ln ex p <=? d * den) && (d * den <=? scale_num hn ex p))%Z%bool
    else ((scale_num ln ex p <? d * den) && (d * den <? scale_num hn ex p))%Z%bool in
  let pick :=
    match inside lo, inside (lo + 1)%Z with
    | true, true =>
        if (2 * r <? den)%Z then Some lo
        else if (den <? 2 * r)%Z then Some (lo + 1)%Z
        else if Z.even lo then Some lo else Some (lo + 1)%Z
    | true, false => Some lo
    | false, true => Some (lo + 1)%Z
    | false, false => None
    end in
  match pick, fuel with
  | Some d, _ => (d, p)
  | None, O => (lo, p)
  | None, S fuel => shortest fuel m e dp (n + 1)
  end.

Fixpoint strip_zeros (fuel : nat) (d p : Z) : Z * Z :=
  match fuel with
  | O => (d, p)
  | S fuel => if ((d mod 10 =? 0) && negb (d =? 0))%Z%bool
              then strip_zeros fuel (d / 10) (p + 1)
              else (d, p)
  end.

Definition two_digits (z : Z) : string :=
  if (z <? 10)%Z then "0" ++ str_int z else str_int z.

(** [repr] of a positive finite float, from its digits [ds] and the place
    [dp] of the decimal point. *)
Definition place_point (ds : string) (dp : Z) : string :=
  let len := Z.of_nat (String.length ds) in
  if ((dp <=? -4) || (16 <? dp))%Z%bool then
    String.substring 0 1 ds
    ++ (if (1 <? len)%Z then "." ++ String.substring 1 (String.length ds - 1) ds
        else "")
    ++ "e" ++ (if (dp - 1 <? 0)%Z then "-" else "+") ++ two_digits (Z.abs (dp - 1))
  else if (dp <=? 0)%Z then
    "0." ++ zeros (Z.to_nat (- dp)) ++ ds
  else if (len <=? dp)%Z then
    ds ++ zeros (Z.to_nat (dp - len)) ++ ".0"
  else
    String.substring 0 (Z.to_nat dp) ds ++ "."
    ++ String.substring (Z.to_nat dp) (String.length ds - Z.to_nat dp) ds.

(** [str(f)] for a Python float, which is [repr(f)]. *)
Definition str_float (f : float) : string :=
  match Prim2SF f with
  | S754_nan => "nan"
  | S754_infinity s => if s then "-inf" else "inf"
  | S754_zero s => if s then "-0.0" else "0.0"
  | S754_finite s m e =>
      let dp := decpt (4 * Zpos m) (e - 2) in
      let '(d, p) := shortest 17 (Zpos m) e dp 1 in
      let '(d, p) := strip_zeros 20 d p in
      let ds := str_int d in
      (if s then "-" else "")
      ++ place_point ds (Z.of_nat (String.length ds) + p)
  end.

(** The counter after [+= 1]: an integer or a float. *)
Inductive number : Type :=
| NInt (z : Z)
| NFloat (f : float).

Definition number_json (c : number) : json :=
  match c with
  | NInt z => JInt z
  | NFloat f => JFloat f
  end.

(** [str(c)], as the f-strings of the report format the counter. *)
Definition str_number (c : number) : string :=
  match c with
  | NInt z => str_int z
  | NFloat f => str_float f
  end.

(** [f"data/{date_str}-{time_str}-pull{self.pull_count}.md"] *)
Definition report_filename (t : utc) (c : number) : string :=
  "data/" ++ date_str t ++ "-" ++ time_str t ++ "-pull" ++ str_number c ++ ".md".

(** [os.path.basename]: what follows the last [/]. *)
Fixpoint basename (p : string) : string :=
  match p with
  | EmptyString => ""
  | String c r => if Ascii.eqb c "/"%char then basename r
                  else if existsb (Ascii.eqb "/"%char) (list_ascii_of_string r)
                       then basename r
                       else p
  end.

Fixpoint startswith (s pre : string) : bool :=
  match pre, s with
  | EmptyString, _ => true
  | String a pre', String b s' => Ascii.eqb a b && startswith s' pre'
  | String _ _, EmptyString => false
  end.

Definition endswith (s suf : string) : bool :=
  startswith (string_of_list_ascii (rev (list_ascii_of_string s)))
             (string_of_list_ascii (rev (list_ascii_of_string suf))).

(** ** Feed entries and the report text *)

(** A feed entry as the report reads it: a dict from attribute names to
    text, read with [entry.get(name, default)]. *)
Definition entry_get (e : gmap string string) (k d : string) : string :=
  default d (e !! k).

Definition NL : string := String (ascii_of_nat 10) "".

Definition entry_section (e : gmap string string) : string :=
  "## " ++ entry_get e "title" "Untitled" ++ NL
  ++ "- **Link**: [" ++ entry_get e "link" "No link" ++ "]("
       ++ entry_get e "link" "No link" ++ ")" ++ NL
  ++ "- **Published**: " ++ entry_get e "published" "Unknown" ++ NL
  ++ "- **Description**: "
       ++ re_sub_tags (entry_get e "description" "No description") ++ NL ++ NL.

Definition report_header (url : string) (t : utc) (c : number) : string :=
  "# CVE Vulnerability Report - " ++ date_str t ++ " " ++ time_str t
    ++ " UTC (Pull #" ++ str_number c ++ ")" ++ NL ++ NL
  ++ "Source: " ++ url ++ NL ++ NL.

Definition report_text (url : string) (t : utc) (c : number)
    (entries : list (gmap string string)) : string :=
  report_header url t c ++ String.concat "" (map entry_section entries).

(** What [feedparser.parse] returns: [bozo] is [Some x] when the flag is set,
    with [x] the [bozo_exception], and [None] when it is not; the entries are
    in feed order.  The object is a dict that always has these keys, so it is
    never false in a condition. *)
Record feed : Type := mk_feed {
  bozo : option exn;
  entries : list (gmap string string) }.

(** ** The world of the monitor *)

Inductive level : Type := INFO | WARNING | ERROR.

(** The log lines of the script, one constructor per [logger] call. *)
Inductive message : Type :=
| LoadedState (pc : json)
| NoValidState
| SavedState (pc : json)
| FetchingFeed (url : string)
| ErrorParsingFeed (e : exn)
| FetchedEntries (n : nat)
| FailedToFetch (e : exn)
| NoEntries
| GeneratedFile (filename : string)
| EmailNotConfigured
| EmailSent (recipients : string)
| EmailFailed (e : exn)
| StartingUpdate
| StartingDailyEmail
| SchedulerStarted.

(** [data/state.json]: absent; text that is not a JSON document (an empty
    file, a document cut short); a file on which [open] or [json.load] raises
    something else, [x] (bytes that are not UTF-8: [UnicodeDecodeError];
    nesting deeper than the parser follows: [RecursionError]; a file that may
    not be read: [OSError]); or the document that [json.load] reads and
    [json.dump] wrote. *)
Inductive state_content : Type :=
| SMissing
| SGarbage
| SUnloadable (x : exn)
| SDoc (v : json).

(** The composed message: headers, body text, and the attachments by name. *)
Record email : Type := mk_email {
  msg_from : json;
  msg_to : string;
  msg_subject : string;
  msg_body : string;
  msg_attachments : list (string * string) }.

(** The calls made on [smtplib], in the order they are made. *)
Inductive smtp_action : Type :=
| SMTP_SSL (host port : json)
| SMTP (host port : json)
| Starttls
| Login (user password : json)
| Sendmail (sender recipients : json) (msg : email)
| Quit.

(** [pull_count] is the attribute of the monitor object; [files] are the
    files other than the state file, by the path they are opened with;
    [wire] collects the SMTP calls. *)
Record world : Type := mk_world {
  pull_count : json;
  files : gmap string string;
  state_file : state_content;
  log : list (level * message);
  wire : list smtp_action }.

(** What can go wrong when a file is written: [open(..., "w")] raises and
    the file is as before; or the file has been created or emptied by the
    open and a write, a flush or the close raises, with only the first
    [n] characters on disk ([Some n]; all of the text when it is not longer)
    or with all of them ([None]). *)
Inductive fault : Type :=
| AtOpen (x : exn)
| AfterOpen (part : option nat) (x : exn).

(** What the outside decides during one task: the clock, the result of
    [feedparser.parse], what goes wrong when the report and when the state
    file is written, which SMTP call fails, whether [data/] can be listed,
    the directories that lie under [data/], whether the [email] package
    refuses to flatten a message whose headers are strings (a header that
    holds a line break), and the order in which [os.listdir] gives the
    names: by rising rank. *)
Record env : Type := mk_env {
  now : utc;
  parse_result : outcome feed;
  report_write : option fault;
  state_write : option fault;
  smtp_fault : smtp_action -> option exn;
  listdir_fault : option exn;
  subdirs : list string;
  mime_fault : email -> option exn;
  listdir_rank : string -> nat }.

(** Computations on the world that return or raise. *)
Definition M (A : Type) : Type := world -> outcome A * world.

#[global] Instance M_ret : MRet M := fun A a w => (Ret a, w).
#[global] Instance M_bind : MBind M := fun A B f m w =>
  match m w with
  | (Ret a, w') => f a w'
  | (Raise e, w') => (Raise e, w')
  end.

Definition lift {A} (o : outcome A) : M A := fun w => (o, w).

(** [try: body except <classes>: handler] *)
Definition try_except {A} (catches : exn -> bool) (body : M A)
    (handler : exn -> M A) : M A := fun w =>
  match body w with
  | (Ret a, w') => (Ret a, w')
  | (Raise e, w') => if catches e then handler e w' else (Raise e, w')
  end.

Definition get_pull_count : M json := fun w => (Ret (pull_count w), w).

Definition set_pull_count (v : json) : M unit := fun w =>
  (Ret tt, mk_world v (files w) (state_file w) (log w) (wire w)).

Definition logger (l : level) (m : message) : M unit := fun w =>
  (Ret tt, mk_world (pull_count w) (files w) (state_file w)
                    (log w ++ [(l, m)]) (wire w)).

(** [open("data/state.json", "r")] followed by [json.load]. *)
Definition read_state : M json := fun w =>
  match state_file w with
  | SMissing => (Raise FileNotFoundError, w)
  | SGarbage => (Raise JSONDecodeError, w)
  | SUnloadable x => (Raise x, w)
  | SDoc v => (Ret v, w)
  end.

Definition set_state_file (c : state_content) (w : world) : world :=
  mk_world (pull_count w) (files w) c (log w) (wire w).

Definition set_file (filename text : string) (w : world) : world :=
  mk_world (pull_count w) (<[filename := text]> (files w)) (state_file w)
           (log w) (wire w).

(** [open("data/state.json", "w")] followed by [json.dump].  The open
    empties the file; a document of which only a part is on disk is not a
    JSON document.  For the state file [AfterOpen (Some _) x] stands for a
    proper part of the document, whatever the number, and [AfterOpen None x]
    for the whole of it. *)
Definition write_state (e : env) (v : json) : M unit := fun w =>
  match state_write e with
  | None => (Ret tt, set_state_file (SDoc v) w)
  | Some (AtOpen x) => (Raise x, w)
  | Some (AfterOpen (Some _) x) => (Raise x, set_state_file SGarbage w)
  | Some (AfterOpen None x) => (Raise x, set_state_file (SDoc v) w)
  end.

(** [open(filename, "w", encoding="utf-8")] and the writes into it. *)
Definition write_report (e : env) (filename text : string) : M unit := fun w =>
  match report_write e with
  | None => (Ret tt, set_file filename text w)
  | Some (AtOpen x) => (Raise x, w)
  | Some (AfterOpen (Some n) x) =>
      (Raise x, set_file filename (String.substring 0 n text) w)
  | Some (AfterOpen None x) => (Raise x, set_file filename text w)
  end.

(** The path is one of the directories under [data/]. *)
Definition is_dir (e : env) (path : string) : bool :=
  existsb (String.eqb path) (map (fun d => "data/" ++ d) (subdirs e)).

(** [open(file, 'rb')] and [f.read()]. *)
Definition read_file (e : env) (path : string) : M string := fun w =>
  if is_dir e path then (Raise IsADirectoryError, w)
  else match files w !! path with
       | Some text => (Ret text, w)
       | None => (Raise FileNotFoundError, w)
       end.

(** [msg.as_string()]: a [From] that is neither a string nor [None] has no
    [encode] and raises [AttributeError]; otherwise the headers are strings
    and the [email] package decides. *)
Definition as_string (e : env) (msg : email) : M unit :=
  lift (match msg_from msg with
        | JStr _ | JNull => match mime_fault e msg with
                            | Some x => Raise x
                            | None => Ret tt
                            end
        | _ => Raise AttributeError
        end).

(** One call on [smtplib]: it is recorded, then fails if the outside says so. *)
Definition smtp (e : env) (a : smtp_action) : M unit := fun w =>
  let w' := mk_world (pull_count w) (files w) (state_file w) (log w)
                     (wire w ++ [a]) in
  match smtp_fault e a with
  | Some x => (Raise x, w')
  | None => (Ret tt, w')
  end.

(** [self.pull_count += 1]: defined on integers, on booleans, which count
    as 0 and 1 and give an integer, and on floats, where the sum is rounded
    to the nearest float. *)
Definition add_one (v : json) : outcome number :=
  match v with
  | JInt z => Ret (NInt (z + 1))
  | JBool b => Ret (NInt ((if b then 1 else 0) + 1))
  | JFloat f => Ret (NFloat (f + 1)%float)
  | _ => Raise TypeError
  end.

Fixpoint all_str (l : list json) : option (list string) :=
  match l with
  | [] => Some []
  | JStr s :: r => match all_str r with
                   | Some ss => Some (s :: ss)
                   | None => None
                   end
  | _ :: _ => None
  end.

(** [', '.join(v)]: over the items of a list when all are strings, over the
    characters of a string, over the keys of a dict. *)
Definition join_comma (v : json) : outcome string :=
  match v with
  | JArr l => match all_str l with
              | Some ss => Ret (String.concat ", " ss)
              | None => Raise TypeError
              end
  | JStr s => Ret (String.concat ", "
                     (map (fun c => String c "") (list_ascii_of_string s)))
  | JObj kv => Ret (String.concat ", " (map fst kv))
  | _ => Raise TypeError
  end.

Fixpoint strip_prefix (pre s : string) : option string :=
  match pre, s with
  | EmptyString, _ => Some s
  | String a pre', String b s' =>
      if Ascii.eqb a b then strip_prefix pre' s' else None
  | String _ _, EmptyString => None
  end.

Definition has_slash (s : string) : bool :=
  existsb (Ascii.eqb "/"%char) (list_ascii_of_string s).

(** The names directly under [data/]: the state file when it exists, the
    files, and the directories. *)
Definition listdir_data (e : env) (w : world) : list string :=
  match state_file w with
  | SMissing => []
  | _ => ["state.json"]
  end
  ++ omap (fun p => match strip_prefix "data/" p with
                    | Some n => if has_slash n then None else Some n
                    | None => None
                    end)
          (map fst (map_to_list (files w)))
  ++ subdirs e.

(** The order of a listing: [os.listdir] gives the names in an order of its
    own, here by rising rank. *)
Definition rank_le (e : env) (a b : string) : Prop :=
  (listdir_rank e a <= listdir_rank e b)%nat.

#[global] Instance rank_le_dec (e : env) : RelDecision (rank_le e) :=
  fun a b => decide (listdir_rank e a <= listdir_rank e b)%nat.

Definition listdir_order (e : env) (names : list string) : list string :=
  merge_sort (rank_le e) names.

(** [os.listdir("data")]: raises when [data/] is missing or cannot be
    listed. *)
Definition listdir (e : env) : M (list string) := fun w =>
  match listdir_fault e with
  | Some x => (Raise x, w)
  | None => (Ret (listdir_order e (listdir_data e w)), w)
  end.

(** ** The methods of [CVEMonitor] *)

Section CVEMonitor.

(** [self.rss_url] and [self.email_config], set once in [__init__].
    [None] is the Python [None]. *)
Variable rss_url : string.
Variable email_config : option json.

Definition load_state : M unit :=
  try_except
    (fun e => match e with
              | FileNotFoundError | JSONDecodeError => true
              | _ => false
              end)
    (state ← read_state;
     pc ← lift (get_method state "pull_count" (JInt 0));
     set_pull_count pc;;
     logger INFO (LoadedState pc))
    (fun _ =>
       logger INFO NoValidState;;
       set_pull_count (JInt 0)).

(** [__init__] *)
Definition init : M unit :=
  set_pull_count (JInt 0);;
  load_state.

Definition save_state (e : env) : M unit :=
  pc ← get_pull_count;
  write_state e (JObj [("pull_count", pc)]);;
  logger INFO (SavedState pc).

Definition fetch_rss_feed (e : env) : M (option feed) :=
  try_except is_Exception
    (logger INFO (FetchingFeed rss_url);;
     f ← lift (parse_result e);
     match bozo f with
     | Some bozo_exception =>
         logger ERROR (ErrorParsingFeed bozo_exception);;
         mret None
     | None =>
         logger INFO (FetchedEntries (length (entries f)));;
         mret (Some f)
     end)
    (fun x =>
       logger ERROR (FailedToFetch x);;
       mret None).

Definition no_entries (f : option feed) : bool :=
  match f with
  | None => true
  | Some f => match entries f with [] => true | _ => false end
  end.

Definition generate_markdown (e : env) (f : option feed) : M (option string) :=
  if no_entries f then
    logger WARNING NoEntries;;
    mret None
  else
    let utc_now := now e in
    pc ← get_pull_count;
    n ← lift (add_one pc);
    set_pull_count (number_json n);;
    let filename := report_filename utc_now n in
    write_report e filename
      (report_text rss_url utc_now n
         (match f with Some f => entries f | None => [] end));;
    logger INFO (GeneratedFile filename);;
    save_state e;;
    mret (Some filename).

Definition run_rss_update (e : env) : M (list string) :=
  logger INFO StartingUpdate;;
  f ← fetch_rss_feed e;
  match f with
  | Some _ =>
      markdown_file ← generate_markdown e f;
      mret (match markdown_file with Some m => [m] | None => [] end)
  | None => mret []
  end.

(** The attachments, read in order: name and content of each file. *)
Fixpoint read_attachments (e : env) (report_files : list string)
    : M (list (string * string)) :=
  match report_files with
  | [] => mret []
  | file :: rest =>
      text ← read_file e file;
      others ← read_attachments e rest;
      mret ((basename file, text) :: others)
  end.

Definition email_body (report_files : list string) : string :=
  "Daily CVE vulnerability report is attached." ++ NL ++ NL
  ++ match report_files with
     | [] => ""
     | _ => "Generated reports:" ++ NL
            ++ String.concat ""
                 (map (fun file => "- " ++ basename file ++ NL) report_files)
     end.

(** The transport: [SMTP_SSL] on port 465, otherwise [SMTP] and
    [starttls] when [use_tls] is true. *)
Definition connect (e : env) (cfg : json) : M unit :=
  port ← lift (subscript cfg "smtp_port");
  if py_eq_int port 465 then
    host ← lift (subscript cfg "smtp_server");
    port ← lift (subscript cfg "smtp_port");
    smtp e (SMTP_SSL host port)
  else
    host ← lift (subscript cfg "smtp_server");
    port ← lift (subscript cfg "smtp_port");
    smtp e (SMTP host port);;
    use_tls ← lift (get_method cfg "use_tls" (JBool false));
    if truthy use_tls then smtp e Starttls else mret tt.

Definition login (e : env) (cfg : json) : M unit :=
  username ← lift (get_method cfg "username" JNull);
  both ← (if truthy username
          then lift (get_method cfg "password" JNull)
          else mret username);
  if truthy both then
    user ← lift (subscript cfg "username");
    pass ← lift (subscript cfg "password");
    smtp e (Login user pass)
  else mret tt.

Definition send_email (e : env) (report_files : list string) : M bool :=
  match email_config with
  | None =>
      logger WARNING EmailNotConfigured;;
      mret false
  | Some cfg =>
      if negb (truthy cfg) then
        logger WARNING EmailNotConfigured;;
        mret false
      else
        try_except is_Exception
          (sender ← lift (subscript cfg "from");
           to ← lift (subscript cfg "to");
           to_line ← lift (join_comma to);
           let subject := "CVE Vulnerability Report - " ++ date_str (now e) in
           let body := email_body report_files in
           attachments ← read_attachments e report_files;
           let msg := mk_email sender to_line subject body attachments in
           connect e cfg;;
           login e cfg;;
           sender ← lift (subscript cfg "from");
           recipients ← lift (subscript cfg "to");
           as_string e msg;;
           smtp e (Sendmail sender recipients msg);;
           smtp e Quit;;
           to ← lift (subscript cfg "to");
           to_line ← lift (join_comma to);
           logger INFO (EmailSent to_line);;
           mret true)
          (fun x =>
             logger ERROR (EmailFailed x);;
             mret false)
  end.

Definition run_daily_email (e : env) : M unit :=
  logger INFO StartingDailyEmail;;
  let today_utc := date_str (now e) in
  names ← listdir e;
  let report_files :=
    List.filter (fun f => startswith f today_utc && endswith f ".md") names in
  let report_files := map (fun f => "data/" ++ f) report_files in
  send_email e report_files;;
  mret tt.

(** ** The scheduler

    [schedule.run_pending] runs the jobs that are due, one after the other,
    and does not catch what a job raises.  Which jobs are due at a tick of
    the loop is decided by the clock: a tick is given as the list of its due
    jobs, each with what the outside decides while it runs. *)

Inductive job : Type := RssUpdate | DailyEmail.

Definition run_job (j : job) (e : env) : M unit :=
  match j with
  | RssUpdate => run_rss_update e;; mret tt
  | DailyEmail => run_daily_email e
  end.

Fixpoint run_pending (due : list (job * env)) : M unit :=
  match due with
  | [] => mret tt
  | (j, e) :: rest => run_job j e;; run_pending rest
  end.

(** The [while True] loop, over the ticks given.  Returning means that the
    loop is still running after them; raising means that it has ended. *)
Fixpoint loop (ticks : list (list (job * env))) : M unit :=
  match ticks with
  | [] => mret tt
  | due :: rest => run_pending due;; loop rest
  end.

Definition run_forever (first : env) (ticks : list (list (job * env))) : M unit :=
  logger INFO SchedulerStarted;;
  run_rss_update first;;
  loop ticks.

End CVEMonitor.

(** ** A sequence of reports, and the scenario of the specification *)

(** Reports written one after the other, each with its own clock reading and
    feed; the names of the reports are collected in order. *)
Fixpoint write_reports (url : string) (l : list (env * feed))
    : M (list string) :=
  match l with
  | [] => mret []
  | (e, f) :: rest =>
      name ← generate_markdown url e (Some f);
      names ← write_reports url rest;
      mret (match name with Some n => n :: names | None => names end)
  end.

(** 2024-01-01T00:00:05Z, and a feed of two entries that have a title and
    nothing else. *)
Definition scenario_time : utc := mk_utc 2024 1 1 0 0 5.

Definition scenario_feed : feed :=
  mk_feed None [ {[ "title" := "CVE-2024-0001" ]};
                 {[ "title" := "CVE-2024-0002" ]} ].

Definition no_fault : smtp_action -> option exn := fun _ => None.

Definition no_mime_fault : email -> option exn := fun _ => None.

Definition no_rank : string -> nat := fun _ => 0%nat.

(** Nothing goes wrong, and [data/] holds no directory. *)
Definition quiet_env (t : utc) (p : outcome feed) : env :=
  mk_env t p None None no_fault None [] no_mime_fault no_rank.

Definition scenario_env : env := quiet_env scenario_time (Ret scenario_feed).

Definition persisted (n : Z) : state_content :=
  SDoc (JObj [("pull_count", JInt n)]).

Definition scenario_world : world :=
  mk_world (JInt 5) ∅ (persisted 5) [] [].

(** The default of [--rss-url]. *)
Definition default_rss_url : string :=
  "https://cvefeed.io/rssfeed/severity/high.xml".

(** The world [w] with the lines [l] added to the log. *)
Definition logged (w : world) (l : list (level * message)) : world :=
  mk_world (pull_count w) (files w) (state_file w) (log w ++ l) (wire w).

(** Two mail configurations: one for port 465 with credentials, one for
    port 25 whose [username] is there but empty. *)
Definition ssl_config : json :=
  JObj [("from", JStr "monitor@example.org");
        ("to", JArr [JStr "team@example.org"]);
        ("smtp_server", JStr "mail.example.org");
        ("smtp_port", JInt 465);
        ("username", JStr "monitor");
        ("password", JStr "secret")].

Definition empty_username_config : json :=
  JObj [("from", JStr "monitor@example.org");
        ("to", JArr [JStr "team@example.org"]);
        ("smtp_server", JStr "mail.example.org");
        ("smtp_port", JInt 25);
        ("username", JStr "");
        ("password", JStr "secret")].

(** ** Vocabulary of the properties *)

(** The text has no [<]; it has no [>]; it has neither. *)
Definition no_lt (s : string) : bool :=
  forallb (fun c => negb (is_lt c)) (list_ascii_of_string s).

Definition no_gt (s : string) : bool :=
  forallb (fun c => negb (is_gt c)) (list_ascii_of_string s).

Definition no_angle (s : string) : bool :=
  forallb (fun c => negb (is_lt c) && negb (is_gt c)) (list_ascii_of_string s).

(** The pattern matches somewhere in the text. *)
Fixpoint has_tag (s : list ascii) : bool :=
  match s with
  | [] => false
  | _ :: r => match tag_match s with
              | Some _ => true
              | None => has_tag r
              end
  end.

Definition tagged (s : string) : bool := has_tag (list_ascii_of_string s).

(** A computation that changes neither the counter, nor the state file, nor
    the files: it may log and talk to the mail server. *)
Definition keeps_state {A} (m : M A) : Prop :=
  forall w, pull_count (snd (m w)) = pull_count w
            /\ state_file (snd (m w)) = state_file w
            /\ files (snd (m w)) = files w.

(** The counter is a value that [+= 1] accepts: a number or a boolean. *)
Definition counts (v : json) : bool :=
  match v with
  | JInt _ | JBool _ | JFloat _ => true
  | _ => false
  end.

(** What the computation raises, if anything, is caught by
    [except Exception]. *)
Definition caught {A} (m : M A) : Prop :=
  forall w x w', m w = (Raise x, w') -> is_Exception x = true.

(** The mail server and the [email] package fail with ordinary exceptions
    only. *)
Definition ordinary_faults (e : env) : Prop :=
  (forall a x, smtp_fault e a = Some x -> is_Exception x = true)
  /\ (forall m x, mime_fault e m = Some x -> is_Exception x = true).

(** The path can be read: it is a file, not a directory. *)
Definition readable (e : env) (w : world) (p : string) : Prop :=
  is_dir e p = false /\ is_Some (files w !! p).

(** [msg.as_string()] returns. *)
Definition flattens (e : env) (msg : email) : bool :=
  match msg_from msg with
  | JStr _ | JNull => match mime_fault e msg with
                      | Some _ => false
                      | None => true
                      end
  | _ => false
  end.

(** The calls that are made of a list of calls to make: all up to the first
    one that fails, that one included. *)
Fixpoint until_fault (e : env) (calls : list smtp_action) : list smtp_action :=
  match calls with
  | [] => []
  | a :: rest => a :: match smtp_fault e a with
                      | Some _ => []
                      | None => until_fault e rest
                      end
  end.

(** The exception of the first call that fails, if one does. *)
Fixpoint first_fault (e : env) (calls : list smtp_action) : option exn :=
  match calls with
  | [] => None
  | a :: rest => match smtp_fault e a with
                 | Some x => Some x
                 | None => first_fault e rest
                 end
  end.

(** What [msg.as_string()] raises, if anything. *)
Definition flatten_fault (e : env) (msg : email) : option exn :=
  match msg_from msg with
  | JStr _ | JNull => mime_fault e msg
  | _ => Some AttributeError
  end.

(** The calls of a list made one after the other. *)
Fixpoint perform (e : env) (calls : list smtp_action) : M unit :=
  match calls with
  | [] => mret tt
  | a :: rest => smtp e a;; perform e rest
  end.

(** The attachments of the report files: base name and content. *)
Definition attached (w : world) (report_files : list string)
    : list (string * string) :=
  map (fun p => (basename p, default "" (files w !! p))) report_files.

(** The report files that [run_daily_email] hands to [send_email]: the
    names under [data/] that start with the date of today and end in [.md]. *)
Definition todays_reports (e : env) (w : world) : list string :=
  map (fun f => "data/" ++ f)
    (List.filter (fun f => startswith f (date_str (now e)) && endswith f ".md")
       (listdir_order e (listdir_data e w))).

(** No directory under [data/] has the name of a report of today. *)
Definition no_report_dir (e : env) : Prop :=
  forall d, In d (subdirs e) ->
    startswith d (date_str (now e)) && endswith d ".md" = false.

(** Nothing in the way of a task: the report and the state file are written
    without a fault, [data/] can be listed, and the parser, the mail server
    and the [email] package fail with ordinary exceptions only. *)
Definition calm (e : env) : Prop :=
  report_write e = None /\ state_write e = None /\ listdir_fault e = None
  /\ (forall x, parse_result e = Raise x -> is_Exception x = true)
  /\ ordinary_faults e.

(** The value of a key of the configuration, [None] when it is absent. *)
Definition field (kv : list (string * json)) (k : string) : json :=
  default JNull (dict_get kv k).

(** A decimal digit. *)
Definition is_digit (c : ascii) : bool :=
  existsb (Ascii.eqb c) (list_ascii_of_string "0123456789").

(** The names given to the reports of a sequence that starts with the
    counter at [k], and the files the sequence leaves. *)
Fixpoint report_names (k : Z) (l : list (env * feed)) : list string :=
  match l with
  | [] => []
  | (e, _) :: rest =>
      report_filename (now e) (NInt (k + 1)) :: report_names (k + 1) rest
  end.

Fixpoint written (url : string) (k : Z) (l : list (env * feed))
    (fs : gmap string string) : gmap string string :=
  match l with
  | [] => fs
  | (e, f) :: rest =>
      written url (k + 1) rest
        (<[report_filename (now e) (NInt (k + 1)) :=
             report_text url (now e) (NInt (k + 1)) (entries f)]> fs)
  end.

(** Both writes of the call succeed, and the feed has entries. *)
Definition succeeds (p : env * feed) : Prop :=
  report_write p.1 = None /\ state_write p.1 = None /\ entries p.2 <> [].

(** * Properties *)

(** Running a computation: unfold the monad and the primitives, and reduce
    the matches on the pairs this exposes. *)
Ltac run :=
  repeat (progress (
    unfold mbind, M_bind, mret, M_ret, lift, try_except, get_pull_count,
      set_pull_count, logger, write_report, write_state, read_state,
      read_file, smtp, save_state, set_state_file, set_file, as_string,
      listdir;
    cbn beta iota delta [fst snd pull_count files state_file log wire])).

(** ** Cleaning descriptions *)

Lemma tag_match_lt c r rest : tag_match (c :: r) = Some rest -> is_lt c = true.
Proof.
  destruct r as [|c1 r]; simpl; [discriminate|].
  destruct (is_lt c); [reflexivity|discriminate].
Qed.

(** A text without [<] has no match, so the substitution returns it as it is. *)
Lemma strip_fixed s :
  forallb (fun c => negb (is_lt c)) s = true -> strip s = s.
Proof.
  funelim (strip s); simpl; intros Hs.
  - reflexivity.
  - apply andb_prop in Hs as [Hc _].
    rewrite (tag_match_lt _ _ _ H) in Hc. discriminate.
  - apply andb_prop in Hs as [_ Hr]. f_equal. auto.
Qed.

Example strip_nested :
  re_sub_tags "<<a>b>" = "<b>" /\ re_sub_tags "<b>" = "".
Proof. split; reflexivity. Qed.

Lemma strip_cons c r :
  strip (c :: r)
  = match tag_match (c :: r) with
    | Some rest => strip rest
    | None => c :: strip r
    end.
Proof.
  simp strip.
  destruct (inspect (tag_match (c :: r))) as [[rest|] H];
    cbn [strip_unfold_clause_2]; rewrite H; reflexivity.
Qed.

Lemma tag_close_suffix s r :
  tag_close s = Some r -> exists pre, s = (pre ++ r)%list.
Proof.
  induction s as [|c s IH]; cbn [tag_close]; [discriminate|].
  destruct (is_gt c); [intros [= ->]; now exists [c]|].
  destruct (is_lt c); [discriminate|].
  intros H. destruct (IH H) as [pre ->]. now exists (c :: pre).
Qed.

Lemma tag_match_suffix s r :
  tag_match s = Some r -> exists pre, s = (pre ++ r)%list.
Proof.
  destruct s as [|c0 [|c1 s]]; cbn [tag_match]; try discriminate.
  destruct (is_lt c0 && negb (is_lt c1)); [|discriminate].
  intros H. destruct (tag_close_suffix _ _ H) as [pre ->].
  now exists (c0 :: c1 :: pre).
Qed.

Lemma strip_sublist s : strip s `sublist_of` s.
Proof.
  funelim (strip s).
  - constructor.
  - destruct (tag_match_suffix _ _ H) as [pre Hpre]. rewrite Hpre.
    now apply sublist_inserts_l.
  - now apply sublist_skip.
Qed.

Lemma tag_match_shorter s r :
  tag_match s = Some r -> (length r < length s)%nat.
Proof.
  destruct s as [|c0 [|c1 s]]; cbn [tag_match]; try discriminate.
  destruct (is_lt c0 && negb (is_lt c1)); [|discriminate].
  intros H. destruct (tag_close_suffix _ _ H) as [pre ->].
  cbn [length]. rewrite length_app. lia.
Qed.

(** The substitution leaves a text as it is exactly when the pattern matches
    nowhere in it. *)
Lemma strip_id_iff s : strip s = s <-> has_tag s = false.
Proof.
  induction s as [|c s IH]; [easy|].
  rewrite strip_cons. cbn [has_tag].
  destruct (tag_match (c :: s)) as [rest|] eqn:Hm.
  - split; [|discriminate]. intros H.
    pose proof (sublist_length _ _ (strip_sublist rest)) as Hl.
    apply tag_match_shorter in Hm. rewrite H in Hl. lia.
  - rewrite <- IH. split; [now intros [= ->]|now intros ->].
Qed.

(** C5, as stated, fails: the inner tag of [<<a>b>] is removed, which leaves
    [<b>], and a second pass removes that too. *)
Lemma strip_not_idempotent :
  re_sub_tags (re_sub_tags "<<a>b>") <> re_sub_tags "<<a>b>".
Proof. vm_compute. discriminate. Qed.

Lemma tag_close_no_gt s :
  forallb (fun c => negb (is_gt c)) s = true -> tag_close s = None.
Proof.
  induction s as [|c s IH]; cbn [forallb tag_close]; [reflexivity|].
  intros H. apply andb_prop in H as [Hc Hs].
  destruct (is_gt c); [discriminate|]. destruct (is_lt c); auto.
Qed.

Lemma strip_no_gt s :
  forallb (fun c => negb (is_gt c)) s = true -> strip s = s.
Proof.
  funelim (strip s); cbn [forallb]; intros Hs.
  - reflexivity.
  - pose proof H as Hm. destruct r as [|c1 r]; [discriminate|].
    cbn [tag_match] in Hm.
    apply andb_prop in Hs as [_ Hs]. cbn [forallb] in Hs.
    apply andb_prop in Hs as [_ Hs].
    rewrite (tag_close_no_gt _ Hs) in Hm.
    destruct (is_lt c && negb (is_lt c1)); discriminate.
  - apply andb_prop in Hs as [_ Hs]. f_equal. auto.
Qed.

(** C5, amended: cleaning a cleaned text again gives the same text exactly
    when the cleaned text holds no tag any more, that is no match of the
    pattern; this is so in particular when it has no [<] left, or no [>]. *)
Theorem strip_idempotent_iff (s : string) :
  (re_sub_tags (re_sub_tags s) = re_sub_tags s
   <-> tagged (re_sub_tags s) = false)
  /\ (no_lt (re_sub_tags s) = true \/ no_gt (re_sub_tags s) = true ->
      re_sub_tags (re_sub_tags s) = re_sub_tags s).
Proof.
  unfold tagged, no_lt, no_gt, re_sub_tags.
  rewrite !list_ascii_of_string_of_list_ascii.
  generalize (strip (list_ascii_of_string s)). intros t. split.
  - rewrite <- strip_id_iff. split; [|now intros ->].
    intros H. apply (f_equal list_ascii_of_string) in H.
    now rewrite !list_ascii_of_string_of_list_ascii in H.
  - intros [H|H]; [rewrite (strip_fixed _ H)|rewrite (strip_no_gt _ H)];
      reflexivity.
Qed.

Lemma strip_idempotent_iff_witness :
  tagged (re_sub_tags "Foo plugin <= 1.2.3 <b>is</b> vulnerable") = false
  /\ re_sub_tags (re_sub_tags "Foo plugin <= 1.2.3 <b>is</b> vulnerable")
     = re_sub_tags "Foo plugin <= 1.2.3 <b>is</b> vulnerable".
Proof.
  split; [reflexivity|].
  apply (proj1 (strip_idempotent_iff
                  "Foo plugin <= 1.2.3 <b>is</b> vulnerable")).
  reflexivity.
Defined.

(** X1: cleaning only deletes.  The cleaned text is a subsequence of the
    description: no character is added, changed or moved. *)
Theorem re_sub_tags_sublist (s : string) :
  list_ascii_of_string (re_sub_tags s) `sublist_of` list_ascii_of_string s.
Proof.
  unfold re_sub_tags. rewrite list_ascii_of_string_of_list_ascii.
  generalize (list_ascii_of_string s). clear s. intros s.
  funelim (strip s).
  - constructor.
  - destruct (tag_match_suffix _ _ H) as [pre Hpre]. rewrite Hpre.
    now apply sublist_inserts_l.
  - now apply sublist_skip.
Qed.

Lemma chars_app (a b : string) :
  list_ascii_of_string (a ++ b)
  = (list_ascii_of_string a ++ list_ascii_of_string b)%list.
Proof. induction a as [|c a IH]; simpl; [reflexivity|]. f_equal. exact IH. Qed.

Lemma append_assoc (a b c : string) : (a ++ b) ++ c = a ++ b ++ c.
Proof.
  induction a as [|x a IH]; [reflexivity|].
  change (String x ((a ++ b) ++ c) = String x (a ++ b ++ c)).
  now rewrite IH.
Qed.

Lemma string_of_list_ascii_app a b :
  string_of_list_ascii (a ++ b)
  = string_of_list_ascii a ++ string_of_list_ascii b.
Proof.
  induction a as [|c a IH]; [reflexivity|].
  cbn [app string_of_list_ascii]. rewrite IH. reflexivity.
Qed.

Lemma strip_app_plain t s :
  forallb (fun c => negb (is_lt c)) t = true ->
  strip (t ++ s) = (t ++ strip s)%list.
Proof.
  induction t as [|c t IH]; cbn [forallb app]; [reflexivity|].
  intros H. apply andb_prop in H as [Hc Ht].
  rewrite strip_cons.
  destruct (tag_match (c :: (t ++ s)%list)) as [rest|] eqn:Hm.
  - apply tag_match_lt in Hm. rewrite Hm in Hc. discriminate.
  - now rewrite IH.
Qed.

Lemma tag_close_body a rest :
  forallb (fun c => negb (is_lt c) && negb (is_gt c)) a = true ->
  tag_close (a ++ ">"%char :: rest) = Some rest.
Proof.
  induction a as [|c a IH]; cbn [forallb app tag_close]; [reflexivity|].
  intros H. apply andb_prop in H as [Hc Ha]. apply andb_prop in Hc as [Hl Hg].
  destruct (is_gt c); [discriminate|]. destruct (is_lt c); [discriminate|].
  auto.
Qed.

(** X2: a description that has no [<], or no [>], is written as it is. *)
Theorem re_sub_tags_plain (s : string) :
  no_lt s = true \/ no_gt s = true -> re_sub_tags s = s.
Proof.
  unfold no_lt, no_gt, re_sub_tags. intros [H|H].
  - rewrite (strip_fixed _ H). apply string_of_list_ascii_of_string.
  - rewrite (strip_no_gt _ H). apply string_of_list_ascii_of_string.
Qed.

Lemma re_sub_tags_plain_witness :
  re_sub_tags "a > b and c" = "a > b and c"
  /\ re_sub_tags "x < y" = "x < y".
Proof.
  split.
  - apply (re_sub_tags_plain "a > b and c"). left. reflexivity.
  - apply (re_sub_tags_plain "x < y"). right. reflexivity.
Defined.

(** X3: a tag whose body is not empty and has no angle bracket is removed as
    a whole; the text before it, when it has no [<], is kept, and cleaning
    goes on behind the tag. *)
Theorem re_sub_tags_removes_tag (before : string) (c : ascii) (body after : string) :
  no_lt before = true ->
  no_angle (String c body) = true ->
  re_sub_tags (before ++ "<" ++ String c body ++ ">" ++ after)
  = before ++ re_sub_tags after.
Proof.
  unfold no_lt, no_angle, re_sub_tags. intros Hb Ha.
  rewrite !chars_app. cbn [list_ascii_of_string app] in *.
  rewrite (strip_app_plain _ _ Hb), strip_cons.
  cbn [forallb] in Ha. apply andb_prop in Ha as [Hc Ha].
  apply andb_prop in Hc as [Hc _].
  cbn [tag_match]. replace (is_lt "<"%char) with true by reflexivity.
  rewrite Hc. cbn [andb].
  rewrite (tag_close_body _ _ Ha).
  rewrite string_of_list_ascii_app, string_of_list_ascii_of_string.
  reflexivity.
Qed.

Lemma re_sub_tags_removes_tag_witness :
  re_sub_tags ("Buffer overflow in " ++ "<" ++ "b" ++ ">" ++ "libfoo</b>")
  = "Buffer overflow in " ++ re_sub_tags "libfoo</b>".
Proof.
  apply (re_sub_tags_removes_tag "Buffer overflow in " "b"%char "" "libfoo</b>");
    reflexivity.
Defined.

(** ** Loading the state *)

(** A missing or unreadable state file starts the counter at 0. *)
Lemma load_state_missing pc fs lg wr :
  load_state (mk_world pc fs SMissing lg wr)
  = (Ret tt, mk_world (JInt 0) fs SMissing (lg ++ [(INFO, NoValidState)]) wr).
Proof. reflexivity. Qed.

Lemma load_state_garbage pc fs lg wr :
  load_state (mk_world pc fs SGarbage lg wr)
  = (Ret tt, mk_world (JInt 0) fs SGarbage (lg ++ [(INFO, NoValidState)]) wr).
Proof. reflexivity. Qed.

(** An object is read with [get]: the value of [pull_count] is taken as it
    is, whatever its type, and 0 stands in only for a missing key. *)
Lemma load_state_object pc fs kv lg wr :
  load_state (mk_world pc fs (SDoc (JObj kv)) lg wr)
  = (Ret tt,
     mk_world (default (JInt 0) (dict_get kv "pull_count")) fs (SDoc (JObj kv))
       (lg ++ [(INFO, LoadedState (default (JInt 0) (dict_get kv "pull_count")))])
       wr).
Proof. reflexivity. Qed.

(** C3: a state file that holds valid JSON other than an object, here the
    empty array, makes [load_state] raise [AttributeError]: the [except]
    clause names [FileNotFoundError] and [JSONDecodeError] only. *)
Theorem load_state_array_raises pc fs lg wr :
  load_state (mk_world pc fs (SDoc (JArr [])) lg wr)
  = (Raise AttributeError, mk_world pc fs (SDoc (JArr [])) lg wr).
Proof. reflexivity. Qed.

(** The same from [__init__]: the monitor is not created. *)
Lemma init_array_raises pc fs lg wr :
  fst (init (mk_world pc fs (SDoc (JArr [])) lg wr)) = Raise AttributeError.
Proof. reflexivity. Qed.

(** A state file that is not UTF-8 text is a further case: [json.load]
    raises [UnicodeDecodeError], which the [except] clause does not name. *)
Lemma load_state_not_utf8_raises pc fs lg wr :
  fst (load_state (mk_world pc fs (SUnloadable UnicodeDecodeError) lg wr))
  = Raise UnicodeDecodeError.
Proof. reflexivity. Qed.

(** A [pull_count] that is not a number is loaded as it is. *)
Example load_state_string_counter :
  pull_count (snd (load_state
    (mk_world (JInt 0) ∅ (SDoc (JObj [("pull_count", JStr "x")])) [] [])))
  = JStr "x".
Proof. reflexivity. Qed.

(** X4: where the counter starts at 0.  A state file that is missing, that
    is text but not a JSON document, or that holds an object without
    [pull_count] does not stop the monitor: [load_state] returns, the counter
    is 0 whatever it was, and nothing on disk is touched. *)
Theorem load_state_starts_at_zero (w : world) :
  state_file w = SMissing \/ state_file w = SGarbage
  \/ (exists kv, state_file w = SDoc (JObj kv)
                 /\ dict_get kv "pull_count" = None) ->
  fst (load_state w) = Ret tt
  /\ pull_count (snd (load_state w)) = JInt 0
  /\ files (snd (load_state w)) = files w
  /\ state_file (snd (load_state w)) = state_file w.
Proof.
  destruct w as [pc fs st lg wr]. cbn [state_file files].
  intros [->|[->|(kv & -> & Hkv)]]; try (repeat split; reflexivity).
  unfold load_state. run. cbn [get_method]. rewrite Hkv. run.
  repeat split; reflexivity.
Qed.

Lemma load_state_starts_at_zero_witness :
  pull_count (snd (load_state
    (mk_world (JInt 9) ∅ (SDoc (JObj [("version", JInt 2)])) [] [])))
  = JInt 0.
Proof.
  apply (load_state_starts_at_zero
           (mk_world (JInt 9) ∅ (SDoc (JObj [("version", JInt 2)])) [] [])).
  right. right. exists [("version", JInt 2)]. split; reflexivity.
Defined.

(** X5: what [save_state] wrote is what a new monitor starts with.  After a
    save that succeeded, [__init__] returns and the counter is the one
    saved, whatever its value. *)
Theorem save_state_then_init (e : env) (w : world) :
  state_write e = None ->
  fst (save_state e w) = Ret tt
  /\ fst (init (snd (save_state e w))) = Ret tt
  /\ pull_count (snd (init (snd (save_state e w)))) = pull_count w.
Proof.
  intros He. destruct w as [pc fs st lg wr].
  unfold save_state, init, load_state. run. rewrite He. run.
  cbn [get_method dict_get String.eqb Ascii.eqb Bool.eqb from_option id].
  run. auto.
Qed.

Lemma save_state_then_init_witness :
  pull_count (snd (init (snd (save_state scenario_env
    (mk_world (JInt 41) ∅ SMissing [] [])))))
  = JInt 41.
Proof.
  apply (save_state_then_init scenario_env (mk_world (JInt 41) ∅ SMissing [] [])).
  reflexivity.
Defined.

(** ** The fetch cycle and the scheduler loop *)

(** C4: when the report cannot be opened for writing, the exception leaves
    [generate_markdown], [run_rss_update] and [run_forever]; the ticks that
    follow are not run. *)
Theorem run_forever_write_failure_raises
    (url : string) (cfg : option json) (t : utc)
    (entry : gmap string string) (others : list (gmap string string))
    (so : option fault) (sf : smtp_action -> option exn)
    (lf : option exn) (sd : list string) (mf : email -> option exn)
    (lr : string -> nat)
    (ticks : list (list (job * env)))
    (k : Z) (fs : gmap string string) (st : state_content)
    (lg : list (level * message)) (wr : list smtp_action) :
  fst (run_forever url cfg
         (mk_env t (Ret (mk_feed None (entry :: others)))
                 (Some (AtOpen OSError)) so sf lf sd mf lr)
         ticks (mk_world (JInt k) fs st lg wr))
  = Raise OSError.
Proof. reflexivity. Qed.

(** The same at a later tick of the loop: the ticks behind it are not run. *)
Lemma loop_write_failure_raises
    (url : string) (cfg : option json) (t : utc)
    (entry : gmap string string) (others : list (gmap string string))
    (so : option fault) (sf : smtp_action -> option exn)
    (lf : option exn) (sd : list string) (mf : email -> option exn)
    (lr : string -> nat)
    (ticks : list (list (job * env)))
    (k : Z) (fs : gmap string string) (st : state_content)
    (lg : list (level * message)) (wr : list smtp_action) :
  fst (loop url cfg
         ([(RssUpdate,
            mk_env t (Ret (mk_feed None (entry :: others)))
                   (Some (AtOpen OSError)) so sf lf sd mf lr)]
          :: ticks)
         (mk_world (JInt k) fs st lg wr))
  = Raise OSError.
Proof. reflexivity. Qed.

(** So does a write that raises after the file was opened. *)
Lemma loop_late_write_failure_raises
    (url : string) (cfg : option json) (t : utc)
    (entry : gmap string string) (others : list (gmap string string))
    (part : option nat)
    (so : option fault) (sf : smtp_action -> option exn)
    (lf : option exn) (sd : list string) (mf : email -> option exn)
    (lr : string -> nat)
    (ticks : list (list (job * env)))
    (k : Z) (fs : gmap string string) (st : state_content)
    (lg : list (level * message)) (wr : list smtp_action) :
  fst (loop url cfg
         ([(RssUpdate,
            mk_env t (Ret (mk_feed None (entry :: others)))
                   (Some (AfterOpen part OSError)) so sf lf sd mf lr)]
          :: ticks)
         (mk_world (JInt k) fs st lg wr))
  = Raise OSError.
Proof. destruct part; reflexivity. Qed.

(** A fetch that fails does not end the loop: the parser's exception is
    caught in [fetch_rss_feed], and the ticks that follow are run. *)
Lemma loop_fetch_failure_goes_on
    (url : string) (cfg : option json) (t : utc) (ro so : option fault)
    (sf : smtp_action -> option exn)
    (lf : option exn) (sd : list string) (mf : email -> option exn)
    (lr : string -> nat)
    (ticks : list (list (job * env))) (w : world) :
  loop url cfg
    ([(RssUpdate, mk_env t (Raise URLError) ro so sf lf sd mf lr)] :: ticks) w
  = loop url cfg ticks
      (logged w [(INFO, StartingUpdate); (INFO, FetchingFeed url);
                 (ERROR, FailedToFetch URLError)]).
Proof.
  destruct w as [pc fs st lg wr]. cbn [loop run_pending run_job].
  unfold run_rss_update, fetch_rss_feed. run. cbn [parse_result is_Exception].
  run. unfold logged. cbn [pull_count files state_file log wire].
  rewrite <- !app_assoc. reflexivity.
Qed.

(** ** Writing a report *)

(** C2, as stated, fails: the counter is incremented before the file is
    opened, so a write that raises leaves it one higher in memory. *)
Lemma failed_write_keeps_increment :
  let e := mk_env scenario_time (Ret scenario_feed) (Some (AtOpen OSError)) None
                  no_fault None [] no_mime_fault no_rank in
  let r := generate_markdown "u" e (Some scenario_feed) scenario_world in
  fst r = Raise OSError
  /\ pull_count scenario_world = JInt 5
  /\ pull_count (snd r) = JInt 6
  /\ pull_count (snd r) <> pull_count scenario_world
  /\ state_file (snd r) = state_file scenario_world.
Proof. repeat split. discriminate. Qed.

(** What [generate_markdown] does on a feed with entries, case by case of the
    two writes.  [n] is the counter after [+= 1]. *)
Lemma generate_markdown_cases
    (url : string) (e : env) (f : feed) (n : number) (w : world) :
  entries f <> [] ->
  add_one (pull_count w) = Ret n ->
  let filename := report_filename (now e) n in
  let text := report_text url (now e) n (entries f) in
  let r := generate_markdown url e (Some f) w in
  (forall x, report_write e = Some (AtOpen x) ->
     r = (Raise x,
          mk_world (number_json n) (files w) (state_file w) (log w) (wire w)))
  /\ (forall part x, report_write e = Some (AfterOpen part x) ->
     r = (Raise x,
          mk_world (number_json n)
            (<[filename := match part with
                           | Some p => String.substring 0 p text
                           | None => text
                           end]> (files w))
            (state_file w) (log w) (wire w)))
  /\ (forall x, report_write e = None -> state_write e = Some (AtOpen x) ->
     r = (Raise x,
          mk_world (number_json n) (<[filename := text]> (files w)) (state_file w)
            (log w ++ [(INFO, GeneratedFile filename)]) (wire w)))
  /\ (forall part x,
        report_write e = None -> state_write e = Some (AfterOpen part x) ->
     r = (Raise x,
          mk_world (number_json n) (<[filename := text]> (files w))
            (match part with
             | Some _ => SGarbage
             | None => SDoc (JObj [("pull_count", number_json n)])
             end)
            (log w ++ [(INFO, GeneratedFile filename)]) (wire w)))
  /\ (report_write e = None -> state_write e = None ->
     r = (Ret (Some filename),
          mk_world (number_json n) (<[filename := text]> (files w))
            (SDoc (JObj [("pull_count", number_json n)]))
            (log w ++ [(INFO, GeneratedFile filename);
                       (INFO, SavedState (number_json n))])
            (wire w))).
Proof.
  intros Hne Hn. destruct w as [pc fs st lg wr]. simpl in Hn.
  unfold generate_markdown, no_entries.
  destruct (entries f) as [|en ens] eqn:Hents; [congruence|].
  run. rewrite Hn. run.
  repeat split.
  - intros x ->. reflexivity.
  - intros part x ->. destruct part; reflexivity.
  - intros x -> Hs. run. rewrite Hs. reflexivity.
  - intros part x -> Hs. run. rewrite Hs. destruct part; reflexivity.
  - intros -> Hs. run. rewrite Hs. run. rewrite <- app_assoc. reflexivity.
Qed.

(** C2, amended: the counter in memory is incremented before the report is
    opened and stays so whether the writes succeed or raise; [save_state]
    runs exactly when the report was written in full.  A report that cannot
    be opened leaves the files and the state file as they were; one that
    raises after the open leaves a file of that name, whole or cut short, and
    the state file as it was.  A state file that cannot be opened keeps its
    old content beside the new report; one that raises after the open is
    left cut short or whole. *)
Theorem generate_markdown_effect
    (url : string) (e : env) (f : feed) (n : number) (w : world) :
  entries f <> [] ->
  add_one (pull_count w) = Ret n ->
  let filename := report_filename (now e) n in
  let text := report_text url (now e) n (entries f) in
  let r := generate_markdown url e (Some f) w in
  (forall x, report_write e = Some (AtOpen x) ->
     r = (Raise x,
          mk_world (number_json n) (files w) (state_file w) (log w) (wire w)))
  /\ (forall part x, report_write e = Some (AfterOpen part x) ->
     r = (Raise x,
          mk_world (number_json n)
            (<[filename := match part with
                           | Some p => String.substring 0 p text
                           | None => text
                           end]> (files w))
            (state_file w) (log w) (wire w)))
  /\ (forall x, report_write e = None -> state_write e = Some (AtOpen x) ->
     r = (Raise x,
          mk_world (number_json n) (<[filename := text]> (files w)) (state_file w)
            (log w ++ [(INFO, GeneratedFile filename)]) (wire w)))
  /\ (forall part x,
        report_write e = None -> state_write e = Some (AfterOpen part x) ->
     r = (Raise x,
          mk_world (number_json n) (<[filename := text]> (files w))
            (match part with
             | Some _ => SGarbage
             | None => SDoc (JObj [("pull_count", number_json n)])
             end)
            (log w ++ [(INFO, GeneratedFile filename)]) (wire w)))
  /\ (report_write e = None -> state_write e = None ->
     r = (Ret (Some filename),
          mk_world (number_json n) (<[filename := text]> (files w))
            (SDoc (JObj [("pull_count", number_json n)]))
            (log w ++ [(INFO, GeneratedFile filename);
                       (INFO, SavedState (number_json n))])
            (wire w))).
Proof. exact (generate_markdown_cases url e f n w). Qed.

Lemma generate_markdown_effect_witness :
  generate_markdown "u"
    (mk_env scenario_time (Ret scenario_feed) (Some (AfterOpen (Some 5) OSError))
            None no_fault None [] no_mime_fault no_rank)
    (Some scenario_feed) scenario_world
  = (Raise OSError,
     mk_world (JInt 6)
       (<["data/2024-01-01-000005-pull6.md" := "# CVE"]> ∅)
       (persisted 5) [] []).
Proof.
  assert (Hne : entries scenario_feed <> []) by discriminate.
  assert (Hn : add_one (pull_count scenario_world) = Ret (NInt 6)) by reflexivity.
  destruct (generate_markdown_effect "u"
              (mk_env scenario_time (Ret scenario_feed)
                      (Some (AfterOpen (Some 5) OSError))
                      None no_fault None [] no_mime_fault no_rank)
              scenario_feed (NInt 6) scenario_world Hne Hn) as (_ & H & _).
  exact (H (Some 5) OSError eq_refl).
Defined.

(** C6: the scenario of the specification.  Two entries that have a title
    only, read at 2024-01-01T00:00:05Z with the counter at 5, give the report
    [data/2024-01-01-000005-pull6.md] with two sections, the absent
    attributes replaced by their defaults, and the state file holds
    [{"pull_count": 6}]. *)
Theorem scenario_report
    (fs : gmap string string) (st : state_content)
    (lg : list (level * message)) (wr : list smtp_action) :
  let text :=
    "# CVE Vulnerability Report - 2024-01-01 000005 UTC (Pull #6)" ++ NL ++ NL
    ++ "Source: https://cvefeed.io/rssfeed/severity/high.xml" ++ NL ++ NL
    ++ "## CVE-2024-0001" ++ NL
    ++ "- **Link**: [No link](No link)" ++ NL
    ++ "- **Published**: Unknown" ++ NL
    ++ "- **Description**: No description" ++ NL ++ NL
    ++ "## CVE-2024-0002" ++ NL
    ++ "- **Link**: [No link](No link)" ++ NL
    ++ "- **Published**: Unknown" ++ NL
    ++ "- **Description**: No description" ++ NL ++ NL in
  generate_markdown default_rss_url scenario_env (Some scenario_feed)
    (mk_world (JInt 5) fs st lg wr)
  = (Ret (Some "data/2024-01-01-000005-pull6.md"),
     mk_world (JInt 6) (<["data/2024-01-01-000005-pull6.md" := text]> fs)
       (SDoc (JObj [("pull_count", JInt 6)]))
       (lg ++ [(INFO, GeneratedFile "data/2024-01-01-000005-pull6.md");
               (INFO, SavedState (JInt 6))])
       wr)
  /\ entry_section ∅
     = "## Untitled" ++ NL
       ++ "- **Link**: [No link](No link)" ++ NL
       ++ "- **Published**: Unknown" ++ NL
       ++ "- **Description**: No description" ++ NL ++ NL.
Proof.
  split; [|reflexivity].
  unfold generate_markdown. cbn [no_entries scenario_feed entries].
  run. cbn [add_one]. run.
  cbn [scenario_env quiet_env report_write state_write now number_json].
  run. rewrite <- app_assoc.
  replace (report_filename scenario_time (NInt (5 + 1)))
    with "data/2024-01-01-000005-pull6.md" by reflexivity.
  match goal with
  | |- (_, mk_world _ (<[_ := ?a]> _) _ _ _) = (_, mk_world _ (<[_ := ?b]> _) _ _ _) =>
      replace a with b by (vm_compute; reflexivity)
  end.
  reflexivity.
Qed.

(** ** Report names *)

Lemma uint_digits d :
  forallb is_digit (list_ascii_of_string (NilEmpty.string_of_uint d)) = true.
Proof. induction d; cbn; auto. Qed.

(** [str(z)] is a run of digits, behind a minus sign when [z] is negative. *)
Lemma str_int_shape z :
  exists ds, forallb is_digit ds = true
    /\ (list_ascii_of_string (str_int z) = ds
        \/ list_ascii_of_string (str_int z) = "-"%char :: ds).
Proof.
  unfold str_int.
  destruct (Z.to_int z) as [d|d]; cbn [NilZero.string_of_int];
    exists (list_ascii_of_string (NilZero.string_of_uint d));
    (split; [destruct d; try apply uint_digits; reflexivity | auto]).
Qed.

Lemma to_int_not_nil z : Z.to_int z <> Decimal.Pos Decimal.Nil
                         /\ Z.to_int z <> Decimal.Neg Decimal.Nil.
Proof.
  destruct z as [|p|p]; cbn; split; try discriminate;
    intros [= H]; now apply DecimalPos.Unsigned.to_uint_nonnil in H.
Qed.

Lemma str_int_inj n m : str_int n = str_int m -> n = m.
Proof.
  unfold str_int. intros H. apply DecimalZ.to_int_inj.
  apply (f_equal NilZero.int_of_string) in H.
  destruct (to_int_not_nil n), (to_int_not_nil m).
  rewrite !NilZero.isi in H by assumption. now injection H.
Qed.

(** A run of digits that ends at a character which is not a digit is
    determined by the text it starts. *)
Lemma digits_split (a b : list ascii) x y r r' :
  forallb is_digit a = true -> forallb is_digit b = true ->
  is_digit x = false -> is_digit y = false ->
  (a ++ x :: r = b ++ y :: r')%list -> a = b /\ x = y.
Proof.
  revert b. induction a as [|c a IH]; intros [|d b] Ha Hb Hx Hy H; cbn in *.
  - injection H as -> _. auto.
  - injection H as -> _. apply andb_prop in Hb as [Hd _]. congruence.
  - injection H as -> _. apply andb_prop in Ha as [Hc _]. congruence.
  - injection H as -> H. apply andb_prop in Ha as [_ Ha], Hb as [_ Hb].
    destruct (IH b Ha Hb Hx Hy H) as [-> ->]. auto.
Qed.

Lemma forallb_rev {A} (p : A -> bool) l :
  forallb p (rev l) = forallb p l.
Proof.
  induction l as [|a l IH]; cbn; [reflexivity|].
  rewrite forallb_app, IH. cbn. rewrite andb_true_r. apply andb_comm.
Qed.

(** The number of a report can be read off its name: two names with
    different numbers differ, whatever their dates and times. *)
Lemma pull_suffix_inj (p q : string) n m :
  p ++ "-pull" ++ str_int n ++ ".md" = q ++ "-pull" ++ str_int m ++ ".md" ->
  n = m.
Proof.
  intros H. apply (f_equal list_ascii_of_string) in H.
  rewrite !chars_app in H. rewrite !app_assoc in H.
  apply app_inv_tail in H. apply (f_equal (@rev ascii)) in H.
  rewrite !rev_app_distr in H.
  apply str_int_inj.
  rewrite <- (string_of_list_ascii_of_string (str_int n)),
          <- (string_of_list_ascii_of_string (str_int m)).
  f_equal.
  destruct (str_int_shape n) as (a & Ha & Hn), (str_int_shape m) as (b & Hb & Hm).
  rewrite <- (forallb_rev _ a) in Ha. rewrite <- (forallb_rev _ b) in Hb.
  destruct Hn as [Hn|Hn], Hm as [Hm|Hm]; rewrite Hn, Hm in H |- *;
    cbn [rev list_ascii_of_string app] in H; rewrite <- ?app_assoc in H;
    cbn [app] in H;
    apply digits_split in H as [Hab Hxy]; try reflexivity; try assumption;
    try discriminate Hxy;
    apply (f_equal (@rev ascii)) in Hab; rewrite !rev_involutive in Hab;
    now subst.
Qed.

Lemma report_filename_inj t t' n m :
  report_filename t (NInt n) = report_filename t' (NInt m) -> n = m.
Proof.
  unfold report_filename. cbn [str_number]. intros H.
  apply (pull_suffix_inj ("data/" ++ date_str t ++ "-" ++ time_str t)
                         ("data/" ++ date_str t' ++ "-" ++ time_str t')).
  rewrite !append_assoc. exact H.
Qed.

(** The name and the text of a report, written out. *)
Lemma report_filename_int t n :
  report_filename t (NInt n)
  = "data/" ++ date_str t ++ "-" ++ time_str t ++ "-pull" ++ str_int n ++ ".md".
Proof. reflexivity. Qed.

Lemma report_text_int url t n l :
  report_text url t (NInt n) l
  = "# CVE Vulnerability Report - " ++ date_str t ++ " " ++ time_str t
    ++ " UTC (Pull #" ++ str_int n ++ ")" ++ NL ++ NL
    ++ "Source: " ++ url ++ NL ++ NL
    ++ String.concat "" (map entry_section l).
Proof.
  unfold report_text, report_header. cbn [str_number].
  rewrite !append_assoc. reflexivity.
Qed.

(** ** A sequence of successful writes *)

Lemma generate_markdown_ok url e f k w :
  pull_count w = JInt k -> succeeds (e, f) ->
  generate_markdown url e (Some f) w
  = (Ret (Some (report_filename (now e) (NInt (k + 1)))),
     mk_world (JInt (k + 1))
       (<[report_filename (now e) (NInt (k + 1)) :=
            report_text url (now e) (NInt (k + 1)) (entries f)]> (files w))
       (persisted (k + 1))
       (log w ++ [(INFO, GeneratedFile (report_filename (now e) (NInt (k + 1))));
                  (INFO, SavedState (JInt (k + 1)))])
       (wire w)).
Proof.
  intros Hk (Hr & Hs & Hne). cbn [fst snd] in *.
  assert (Hn : add_one (pull_count w) = Ret (NInt (k + 1))) by now rewrite Hk.
  destruct (generate_markdown_cases url e f _ w Hne Hn) as (_ & _ & _ & _ & H).
  exact (H Hr Hs).
Qed.

Lemma write_reports_run url l : forall k w,
  pull_count w = JInt k -> state_file w = persisted k -> Forall succeeds l ->
  exists w',
    write_reports url l w = (Ret (report_names k l), w')
    /\ pull_count w' = JInt (k + Z.of_nat (length l))
    /\ state_file w' = persisted (k + Z.of_nat (length l))
    /\ files w' = written url k l (files w).
Proof.
  induction l as [|[e f] l IH]; intros k w Hk Hst Hl.
  - exists w. cbn. rewrite Z.add_0_r. auto.
  - apply Forall_cons in Hl as [Hef Hl].
    cbn [write_reports report_names written length].
    unfold mbind at 1, M_bind at 1.
    rewrite (generate_markdown_ok url e f k w Hk Hef).
    cbn beta iota. unfold mbind at 1, M_bind at 1.
    match goal with
    | |- context [write_reports url l ?w1] =>
        destruct (IH (k + 1)%Z w1 eq_refl eq_refl Hl) as (w2 & H1 & H2 & H3 & H4)
    end.
    rewrite H1. exists w2. run.
    rewrite H2, H3, H4. cbn [files].
    replace (k + 1 + Z.of_nat (length l))%Z
      with (k + Z.of_nat (S (length l)))%Z by lia.
    auto.
Qed.

Lemma report_names_numbers k l p :
  In p (report_names k l) ->
  exists t n, p = report_filename t (NInt n) /\ (k < n)%Z.
Proof.
  revert k. induction l as [|[e f] l IH]; intros k; cbn [report_names In]; [easy|].
  intros [<-|H].
  - exists (now e), (k + 1)%Z. split; [reflexivity|lia].
  - apply IH in H as (t & n & -> & Hn). exists t, n. split; [reflexivity|lia].
Qed.

Lemma report_names_NoDup k l : NoDup (report_names k l).
Proof.
  revert k. induction l as [|[e f] l IH]; intros k; cbn [report_names].
  - constructor.
  - apply NoDup_cons_2; [|apply IH].
    rewrite list_elem_of_In.
    intros H. apply report_names_numbers in H as (t & n & Heq & Hn).
    apply report_filename_inj in Heq. lia.
Qed.

Lemma written_other url l : forall k fs p,
  (forall t n, (k < n)%Z -> p <> report_filename t (NInt n)) ->
  written url k l fs !! p = fs !! p.
Proof.
  induction l as [|[e f] l IH]; intros k fs p Hp; cbn [written]; [reflexivity|].
  rewrite IH by (intros t n Hn; apply Hp; lia).
  apply lookup_insert_ne. intros Heq. symmetry in Heq. revert Heq.
  apply Hp. lia.
Qed.

Lemma written_lookup url l : forall k fs i e f,
  l !! i = Some (e, f) ->
  report_names k l !! i
  = Some (report_filename (now e) (NInt (k + Z.of_nat i + 1)))
  /\ written url k l fs !! report_filename (now e) (NInt (k + Z.of_nat i + 1))
     = Some (report_text url (now e) (NInt (k + Z.of_nat i + 1)) (entries f)).
Proof.
  induction l as [|[e0 f0] l IH]; intros k fs i e f Hi; [discriminate|].
  destruct i as [|i]; cbn in Hi.
  - injection Hi as -> ->. cbn [report_names written Z.of_nat].
    rewrite Z.add_0_r. split; [reflexivity|].
    rewrite written_other.
    + apply lookup_insert_eq.
    + intros t n Hn Heq. apply report_filename_inj in Heq. lia.
  - cbn [report_names written].
    replace (k + Z.of_nat (S i) + 1)%Z with (k + 1 + Z.of_nat i + 1)%Z by lia.
    apply (IH (k + 1)%Z _ i e f Hi).
Qed.

(** C1: a sequence of successful writes that starts with the counter at [k],
    in memory and in the state file.  After [N] writes the state file holds
    [{"pull_count": k + N}], and the names returned are pairwise different.
    The [i]-th report (from 0) carries the number [k + i + 1]: its name is
    [data/<date>-<time>-pull<k+i+1>.md], its text starts with the header
    [# CVE Vulnerability Report - <date> <time> UTC (Pull #<k+i+1>)] and the
    source line and goes on with the sections of the entries, and
    [k + i + 1] is the number the state file holds once that report has been
    written. *)
Theorem write_reports_sequence
    (url : string) (k : Z) (l : list (env * feed)) (w : world) :
  pull_count w = JInt k ->
  state_file w = SDoc (JObj [("pull_count", JInt k)]) ->
  Forall succeeds l ->
  exists names w',
    write_reports url l w = (Ret names, w')
    /\ length names = length l
    /\ NoDup names
    /\ pull_count w' = JInt (k + Z.of_nat (length l))
    /\ state_file w'
       = SDoc (JObj [("pull_count", JInt (k + Z.of_nat (length l)))])
    /\ forall i e f, l !! i = Some (e, f) ->
         let n := (k + Z.of_nat i + 1)%Z in
         let name := "data/" ++ date_str (now e) ++ "-" ++ time_str (now e)
                     ++ "-pull" ++ str_int n ++ ".md" in
         names !! i = Some name
         /\ files w' !! name
            = Some ("# CVE Vulnerability Report - " ++ date_str (now e) ++ " "
                    ++ time_str (now e) ++ " UTC (Pull #" ++ str_int n ++ ")"
                    ++ NL ++ NL
                    ++ "Source: " ++ url ++ NL ++ NL
                    ++ String.concat "" (map entry_section (entries f)))
         /\ state_file (snd (write_reports url (take (S i) l) w))
            = SDoc (JObj [("pull_count", JInt n)]).
Proof.
  intros Hk Hst Hl. change (state_file w = persisted k) in Hst.
  destruct (write_reports_run url l k w Hk Hst Hl) as (w' & Hrun & Hpc & Hsf & Hfs).
  exists (report_names k l), w'. split; [exact Hrun|]. split.
  { clear. revert k. induction l as [|[e f] l IH]; intros k; cbn; auto. }
  split; [apply report_names_NoDup|].
  split; [exact Hpc|]. split; [exact Hsf|].
  intros i e f Hi n name.
  destruct (written_lookup url l k (files w) i e f Hi) as [Hname Hfile].
  rewrite report_text_int in Hfile.
  split; [exact Hname|]. split; [rewrite Hfs; exact Hfile|].
  assert (Hpre : Forall succeeds (take (S i) l)) by now apply Forall_take.
  destruct (write_reports_run url _ k w Hk Hst Hpre) as (w1 & Hrun1 & _ & Hsf1 & _).
  assert (Hlen : length (take (S i) l) = S i).
  { rewrite length_take. apply lookup_lt_Some in Hi. lia. }
  rewrite Hrun1. cbn [snd]. rewrite Hsf1, Hlen. subst n. unfold persisted.
  replace (k + Z.of_nat (S i))%Z with (k + Z.of_nat i + 1)%Z by lia.
  reflexivity.
Qed.

Lemma write_reports_sequence_witness :
  exists w',
    write_reports "u" [(scenario_env, scenario_feed); (scenario_env, scenario_feed)]
      scenario_world
    = (Ret ["data/2024-01-01-000005-pull6.md"; "data/2024-01-01-000005-pull7.md"],
       w')
    /\ pull_count w' = JInt 7
    /\ state_file w' = SDoc (JObj [("pull_count", JInt 7)])
    /\ files w' !! "data/2024-01-01-000005-pull7.md"
       = Some ("# CVE Vulnerability Report - 2024-01-01 000005 UTC (Pull #7)"
               ++ NL ++ NL ++ "Source: u" ++ NL ++ NL
               ++ String.concat "" (map entry_section (entries scenario_feed))).
Proof.
  assert (Hl : Forall succeeds
                 [(scenario_env, scenario_feed); (scenario_env, scenario_feed)]).
  { repeat first [apply List.Forall_cons | apply List.Forall_nil];
      (split; [reflexivity | split; [reflexivity | discriminate]]). }
  destruct (write_reports_sequence "u" 5
              [(scenario_env, scenario_feed); (scenario_env, scenario_feed)]
              scenario_world eq_refl eq_refl Hl)
    as (names & w' & Hrun & _ & _ & Hpc & Hsf & Hi).
  destruct (Hi 1%nat scenario_env scenario_feed eq_refl) as (Hn & Hf & _).
  destruct (Hi 0%nat scenario_env scenario_feed eq_refl) as (Hn0 & _ & _).
  destruct names as [|a [|b [|c names]]]; try discriminate.
  injection Hn as ->. injection Hn0 as ->.
  exists w'. split; [exact Hrun|]. split; [exact Hpc|]. split; [exact Hsf|].
  exact Hf.
Defined.

(** ** A fetch that yields nothing *)

(** C8, as stated, fails: with a feed of zero entries [run_rss_update] does
    call [generate_markdown], which logs its warning and returns [None].  The
    caller tests the feed object, not its entries. *)
Lemma empty_feed_reaches_generate_markdown :
  let e := quiet_env scenario_time (Ret (mk_feed None [])) in
  let before :=
    snd (fetch_rss_feed "u" e (snd (logger INFO StartingUpdate scenario_world))) in
  snd (run_rss_update "u" e scenario_world)
  = snd (generate_markdown "u" e (Some (mk_feed None [])) before)
  /\ ~ In (WARNING, NoEntries) (log before)
  /\ In (WARNING, NoEntries) (log (snd (run_rss_update "u" e scenario_world))).
Proof.
  split; [reflexivity|]. split.
  - cbn. intros [H|[H|[H|[]]]]; discriminate H.
  - cbn. do 3 right. left. reflexivity.
Qed.

(** C8, amended: with a feed of zero entries the cycle returns the empty
    list, having called [generate_markdown] for its warning only: no file is
    written, the counter and the state file are as before. *)
Theorem empty_feed_cycle (url : string) (e : env) (w : world) :
  parse_result e = Ret (mk_feed None []) ->
  run_rss_update url e w
  = (Ret [],
     logged w [(INFO, StartingUpdate); (INFO, FetchingFeed url);
               (INFO, FetchedEntries 0); (WARNING, NoEntries)]).
Proof.
  intros H. destruct w as [pc fs st lg wr].
  unfold run_rss_update, fetch_rss_feed. run. rewrite H. run.
  cbn [bozo entries length]. run.
  unfold generate_markdown. cbn [no_entries entries]. run.
  unfold logged. cbn [pull_count files state_file log wire].
  rewrite <- !app_assoc. reflexivity.
Qed.

Lemma empty_feed_cycle_witness :
  run_rss_update "u"
    (quiet_env scenario_time (Ret (mk_feed None [])))
    scenario_world
  = (Ret [],
     logged scenario_world
       [(INFO, StartingUpdate); (INFO, FetchingFeed "u");
        (INFO, FetchedEntries 0); (WARNING, NoEntries)]).
Proof.
  apply (empty_feed_cycle "u"
           (quiet_env scenario_time (Ret (mk_feed None [])))
           scenario_world).
  reflexivity.
Defined.

(** ** A fetch that fails *)

(** C9, as stated, fails: a document flagged by the parser and an exception
    raised by it give the same value, [None]; nothing in it tells one kind
    of failure from the other. *)
Lemma fetch_failures_same_value :
  fst (fetch_rss_feed "u"
         (quiet_env scenario_time (Ret (mk_feed (Some SAXParseException) [])))
         scenario_world)
  = fst (fetch_rss_feed "u"
           (quiet_env scenario_time (Raise URLError))
           scenario_world).
Proof. reflexivity. Qed.

(** C9, amended: a flagged document and an exception of the parser both make
    [fetch_rss_feed] return [None]; they differ in the line logged.  In both
    cases the cycle returns the empty list and changes nothing but the log. *)
Theorem fetch_failure_is_none (url : string) (e : env) (w : world) :
  (forall f x, parse_result e = Ret f -> bozo f = Some x ->
     fetch_rss_feed url e w
     = (Ret None, logged w [(INFO, FetchingFeed url);
                            (ERROR, ErrorParsingFeed x)])
     /\ run_rss_update url e w
        = (Ret [], logged w [(INFO, StartingUpdate); (INFO, FetchingFeed url);
                             (ERROR, ErrorParsingFeed x)]))
  /\ (forall x, parse_result e = Raise x -> is_Exception x = true ->
     fetch_rss_feed url e w
     = (Ret None, logged w [(INFO, FetchingFeed url);
                            (ERROR, FailedToFetch x)])
     /\ run_rss_update url e w
        = (Ret [], logged w [(INFO, StartingUpdate); (INFO, FetchingFeed url);
                             (ERROR, FailedToFetch x)])).
Proof.
  destruct w as [pc fs st lg wr]. split.
  - intros f x Hp Hb.
    unfold run_rss_update, fetch_rss_feed. run. rewrite Hp. run. rewrite Hb.
    run. unfold logged. cbn [pull_count files state_file log wire].
    rewrite <- !app_assoc. split; reflexivity.
  - intros x Hp Hx.
    unfold run_rss_update, fetch_rss_feed. run. rewrite Hp. run. rewrite Hx.
    run. unfold logged. cbn [pull_count files state_file log wire].
    rewrite <- !app_assoc. split; reflexivity.
Qed.

Lemma fetch_failure_is_none_witness :
  run_rss_update "u"
    (quiet_env scenario_time (Ret (mk_feed (Some SAXParseException) [])))
    scenario_world
  = (Ret [], logged scenario_world
               [(INFO, StartingUpdate); (INFO, FetchingFeed "u");
                (ERROR, ErrorParsingFeed SAXParseException)])
  /\ run_rss_update "u"
       (quiet_env scenario_time (Raise URLError))
       scenario_world
     = (Ret [], logged scenario_world
                  [(INFO, StartingUpdate); (INFO, FetchingFeed "u");
                   (ERROR, FailedToFetch URLError)]).
Proof.
  split.
  - apply (proj1 (fetch_failure_is_none "u"
             (quiet_env scenario_time (Ret (mk_feed (Some SAXParseException) [])))
             scenario_world)
             (mk_feed (Some SAXParseException) []) SAXParseException);
      reflexivity.
  - apply (proj2 (fetch_failure_is_none "u"
             (quiet_env scenario_time (Raise URLError))
             scenario_world)
             URLError); reflexivity.
Defined.

(** ** The digest leaves the state alone *)

Create HintDb keeps.

Section Keeps.

Context {A B : Type}.

Lemma keeps_ret (a : A) : keeps_state (mret a : M A).
Proof. intros w. repeat split. Qed.

Lemma keeps_lift (o : outcome A) : keeps_state (lift o).
Proof. intros w. repeat split. Qed.

Lemma keeps_bind (m : M A) (k : A -> M B) :
  keeps_state m -> (forall a, keeps_state (k a)) -> keeps_state (m ≫= k).
Proof.
  intros Hm Hk w. specialize (Hm w). unfold mbind, M_bind.
  destruct (m w) as [[a|x] w']; cbn [snd] in *; [|exact Hm].
  destruct (Hk a w') as (H1 & H2 & H3), Hm as (H4 & H5 & H6).
  repeat split; congruence.
Qed.

Lemma keeps_try (c : exn -> bool) (m : M A) (h : exn -> M A) :
  keeps_state m -> (forall x, keeps_state (h x)) ->
  keeps_state (try_except c m h).
Proof.
  intros Hm Hh w. specialize (Hm w). unfold try_except.
  destruct (m w) as [[a|x] w']; cbn [snd] in *; [exact Hm|].
  destruct (c x); [|exact Hm].
  destruct (Hh x w') as (H1 & H2 & H3), Hm as (H4 & H5 & H6).
  repeat split; congruence.
Qed.

End Keeps.

Lemma keeps_logger l m : keeps_state (logger l m).
Proof. intros w. repeat split. Qed.

Lemma keeps_smtp e a : keeps_state (smtp e a).
Proof. intros w. unfold smtp. destruct (smtp_fault e a); repeat split. Qed.

Lemma keeps_read_file e p : keeps_state (read_file e p).
Proof.
  intros w. unfold read_file.
  destruct (is_dir e p); [|destruct (files w !! p)]; repeat split.
Qed.

Lemma keeps_as_string e msg : keeps_state (as_string e msg).
Proof. apply keeps_lift. Qed.

Lemma keeps_listdir e : keeps_state (listdir e).
Proof. intros w. unfold listdir. destruct (listdir_fault e); repeat split. Qed.

#[local] Hint Resolve keeps_ret keeps_lift keeps_logger keeps_smtp
  keeps_read_file keeps_as_string keeps_listdir : keeps.

(** Goes through a computation bind by bind. *)
Ltac keeps :=
  repeat first
    [ apply keeps_bind; [|intros ?]
    | apply keeps_try; [|intros ?]
    | solve [auto with keeps]
    | match goal with
      | |- keeps_state (if ?b then _ else _) => destruct b
      | |- keeps_state (match ?o with _ => _ end) => destruct o
      end ].

Lemma keeps_read_attachments e l : keeps_state (read_attachments e l).
Proof. induction l as [|p l IH]; cbn [read_attachments]; keeps. Qed.

#[local] Hint Resolve keeps_read_attachments : keeps.

Lemma keeps_connect e cfg : keeps_state (connect e cfg).
Proof. unfold connect. keeps. Qed.

Lemma keeps_login e cfg : keeps_state (login e cfg).
Proof. unfold login. keeps. Qed.

#[local] Hint Resolve keeps_connect keeps_login : keeps.

Lemma keeps_send_email cfg e l : keeps_state (send_email cfg e l).
Proof. unfold send_email. keeps. Qed.

Lemma keeps_run_daily_email cfg e : keeps_state (run_daily_email cfg e).
Proof.
  unfold run_daily_email. keeps. apply keeps_send_email.
Qed.

(** C10: the digest never changes the monitor state.  Whatever the
    configuration, the report files and the behaviour of the mail server,
    [send_email] and [run_daily_email] leave the counter, the state file and
    the files as they were. *)
Theorem digest_keeps_state
    (cfg : option json) (e : env) (report_files : list string) (w : world) :
  (pull_count (snd (send_email cfg e report_files w)) = pull_count w
   /\ state_file (snd (send_email cfg e report_files w)) = state_file w
   /\ files (snd (send_email cfg e report_files w)) = files w)
  /\ (pull_count (snd (run_daily_email cfg e w)) = pull_count w
      /\ state_file (snd (run_daily_email cfg e w)) = state_file w
      /\ files (snd (run_daily_email cfg e w)) = files w).
Proof.
  split; [apply keeps_send_email | apply keeps_run_daily_email].
Qed.


(** ** The transport of the digest *)

Lemma read_attachments_ok e l w :
  Forall (readable e w) l ->
  read_attachments e l w = (Ret (attached w l), w).
Proof.
  induction 1 as [|p l [Hd [text Hp]] _ IH]; [reflexivity|].
  cbn [read_attachments attached map]. run. rewrite Hd, Hp. run. rewrite IH.
  reflexivity.
Qed.

Lemma read_attachments_unreadable e l w :
  ~ Forall (readable e w) l ->
  exists x, is_Exception x = true
            /\ read_attachments e l w = (Raise x, w).
Proof.
  induction l as [|p l IH]; intros H.
  - elim H. constructor.
  - cbn [read_attachments]. run.
    destruct (is_dir e p) eqn:Hd; [eexists; split; [|reflexivity]; reflexivity|].
    destruct (files w !! p) as [text|] eqn:Hp;
      [|eexists; split; [|reflexivity]; reflexivity].
    destruct IH as (x & Hx & ->).
    + intros Hl. apply H. constructor; [|exact Hl].
      split; [exact Hd|rewrite Hp; eauto].
    + exists x. split; [exact Hx|reflexivity].
Qed.

Lemma perform_run e calls : forall w,
  perform e calls w
  = (match first_fault e calls with
     | Some x => Raise x
     | None => Ret tt
     end,
     mk_world (pull_count w) (files w) (state_file w) (log w)
              (wire w ++ until_fault e calls)).
Proof.
  induction calls as [|a calls IH]; intros [pc fs st lg wr].
  - cbn [perform first_fault until_fault]. run. now rewrite app_nil_r.
  - cbn [perform first_fault until_fault]. run.
    destruct (smtp_fault e a) as [x|]; cbn beta iota.
    + reflexivity.
    + rewrite IH. cbn [pull_count files state_file log wire].
      now rewrite <- app_assoc.
Qed.

Lemma until_fault_app e a b :
  until_fault e (a ++ b)
  = (until_fault e a
     ++ match first_fault e a with
        | Some _ => []
        | None => until_fault e b
        end)%list.
Proof.
  induction a as [|c a IH]; cbn [app until_fault first_fault]; [reflexivity|].
  destruct (smtp_fault e c); [reflexivity|]. now rewrite IH.
Qed.

Lemma first_fault_app e a b :
  first_fault e (a ++ b)
  = match first_fault e a with
    | Some x => Some x
    | None => first_fault e b
    end.
Proof.
  induction a as [|c a IH]; cbn [app first_fault]; [reflexivity|].
  destruct (smtp_fault e c); [reflexivity|]. exact IH.
Qed.

Lemma first_fault_none e calls :
  first_fault e calls = None <-> List.Forall (fun a => smtp_fault e a = None) calls.
Proof.
  induction calls as [|a calls IH]; cbn [first_fault].
  - split; [constructor|reflexivity].
  - destruct (smtp_fault e a) eqn:Ha; split.
    + discriminate.
    + intros H. inversion H. congruence.
    + intros H. apply List.Forall_cons; [exact Ha|now apply IH].
    + intros H. inversion H. now apply IH.
Qed.

Lemma perform_app e a b w :
  perform e (a ++ b) w = (perform e a;; perform e b) w.
Proof.
  unfold mbind, M_bind. rewrite !perform_run.
  rewrite first_fault_app, until_fault_app.
  destruct (first_fault e a); cbn beta iota.
  - now rewrite app_nil_r.
  - rewrite ?perform_run. cbn [pull_count files state_file log wire].
    now rewrite app_assoc.
Qed.

(** The calls of [connect] and of [login], as lists. *)
Lemma connect_perform e kv host port w :
  dict_get kv "smtp_server" = Some host ->
  dict_get kv "smtp_port" = Some port ->
  connect e (JObj kv) w
  = perform e
      (if py_eq_int port 465 then [SMTP_SSL host port]
       else SMTP host port
            :: (if truthy (default (JBool false) (dict_get kv "use_tls"))
                then [Starttls] else []))
      w.
Proof.
  intros Hh Hp. destruct w as [pc fs st lg wr].
  unfold connect. cbn [subscript get_method]. rewrite Hh, Hp. run.
  destruct (py_eq_int port 465); cbn [perform]; run.
  - destruct (smtp_fault e (SMTP_SSL host port)); reflexivity.
  - destruct (smtp_fault e (SMTP host port)); [reflexivity|].
    destruct (truthy (default (JBool false) (dict_get kv "use_tls")));
      cbn [perform]; run; [|reflexivity].
    destruct (smtp_fault e Starttls); reflexivity.
Qed.

Lemma login_perform e kv w :
  login e (JObj kv) w
  = perform e
      (if truthy (field kv "username") && truthy (field kv "password")
       then [Login (field kv "username") (field kv "password")]
       else [])
      w.
Proof.
  destruct w as [pc fs st lg wr].
  unfold login, field. cbn [get_method subscript]. run.
  destruct (dict_get kv "username") as [u|]; cbn [from_option id];
    [|cbn [truthy andb perform]; run; reflexivity].
  destruct (truthy u) eqn:Hu; cbn [andb]; run.
  - destruct (dict_get kv "password") as [p|]; cbn [from_option id];
      [|cbn [truthy perform]; run; reflexivity].
    destruct (truthy p); cbn [perform]; run; [|reflexivity].
    destruct (smtp_fault e (Login u p)); reflexivity.
  - rewrite Hu. cbn [perform]. run. reflexivity.
Qed.

Lemma as_string_run e msg w :
  as_string e msg w
  = (match flatten_fault e msg with
     | Some x => Raise x
     | None => Ret tt
     end, w).
Proof.
  unfold as_string, flatten_fault, lift.
  destruct (msg_from msg); try reflexivity; destruct (mime_fault e msg); reflexivity.
Qed.

Lemma flattens_fault e msg :
  flattens e msg = match flatten_fault e msg with
                   | Some _ => false
                   | None => true
                   end.
Proof.
  unfold flattens, flatten_fault.
  destruct (msg_from msg); try reflexivity; destruct (mime_fault e msg); reflexivity.
Qed.

(** [send_email] on a configuration that has [from], [to], [smtp_server] and
    [smtp_port], with recipients that can be joined and report files that
    can be read: the calls of the transport and of the credentials, the
    flattening of the message, [sendmail] and [quit], inside the handler. *)
Lemma send_email_run
    (kv : list (string * json)) (e : env) (report_files : list string)
    (w : world) (sender to host port : json) (to_line : string) :
  dict_get kv "from" = Some sender ->
  dict_get kv "to" = Some to ->
  join_comma to = Ret to_line ->
  dict_get kv "smtp_server" = Some host ->
  dict_get kv "smtp_port" = Some port ->
  Forall (readable e w) report_files ->
  let msg :=
    mk_email sender to_line
      ("CVE Vulnerability Report - " ++ date_str (now e))
      (email_body report_files) (attached w report_files) in
  let calls :=
    ((if py_eq_int port 465 then [SMTP_SSL host port]
      else SMTP host port
           :: (if truthy (default (JBool false) (dict_get kv "use_tls"))
               then [Starttls] else []))
     ++ (if truthy (field kv "username") && truthy (field kv "password")
         then [Login (field kv "username") (field kv "password")]
         else []))%list in
  send_email (Some (JObj kv)) e report_files w
  = try_except is_Exception
      (perform e calls;;
       as_string e msg;;
       perform e [Sendmail sender to msg; Quit];;
       logger INFO (EmailSent to_line);;
       mret true)
      (fun x => logger ERROR (EmailFailed x);; mret false)
      w.
Proof.
  intros Hfrom Hto Hjoin Hhost Hport Hfiles msg calls.
  assert (Ht : truthy (JObj kv) = true).
  { destruct kv; [discriminate|reflexivity]. }
  unfold send_email. rewrite Ht. cbn [negb].
  unfold try_except. f_equal.
  cbn [subscript]. rewrite Hfrom, Hto.
  unfold mbind at 1, M_bind at 1, lift at 1. cbn beta iota.
  unfold mbind at 1, M_bind at 1, lift at 1. cbn beta iota.
  rewrite Hjoin.
  unfold mbind at 1, M_bind at 1, lift at 1. cbn beta iota.
  unfold mbind at 1, M_bind at 1.
  rewrite (read_attachments_ok _ _ _ Hfiles). cbn beta iota.
  fold msg.
  unfold mbind at 1, M_bind at 1.
  rewrite (connect_perform e kv host port w Hhost Hport).
  subst calls.
  symmetry. unfold mbind at 1, M_bind at 1. rewrite perform_app.
  unfold mbind at 1, M_bind at 1. symmetry.
  rewrite !perform_run.
  match goal with
  | |- context [first_fault e ?c] => destruct (first_fault e c)
  end; cbn beta iota; [reflexivity|].
  unfold mbind at 1, M_bind at 1. rewrite login_perform, !perform_run.
  cbn [pull_count files state_file log wire].
  match goal with
  | |- context [first_fault e ?c] => destruct (first_fault e c)
  end; cbn beta iota; [reflexivity|].
  unfold mbind at 1, M_bind at 1, lift at 1. cbn beta iota.
  unfold mbind at 1, M_bind at 1, lift at 1. cbn beta iota.
  unfold mbind at 1, M_bind at 1. symmetry. unfold mbind at 1, M_bind at 1.
  rewrite !as_string_run.
  destruct (flatten_fault e msg); cbn beta iota; [reflexivity|].
  cbn [perform]. run.
  destruct (smtp_fault e (Sendmail sender to msg)); [reflexivity|].
  destruct (smtp_fault e Quit); [reflexivity|].
  rewrite Hjoin. reflexivity.
Qed.

(** What comes of it: the calls made are those to make up to the first one
    that fails; the message is handed to [sendmail] only when it can be
    flattened; the first failure, if there is one, decides the result. *)
Lemma send_email_result
    (kv : list (string * json)) (e : env) (report_files : list string)
    (w : world) (sender to host port : json) (to_line : string) :
  dict_get kv "from" = Some sender ->
  dict_get kv "to" = Some to ->
  join_comma to = Ret to_line ->
  dict_get kv "smtp_server" = Some host ->
  dict_get kv "smtp_port" = Some port ->
  Forall (readable e w) report_files ->
  let msg :=
    mk_email sender to_line
      ("CVE Vulnerability Report - " ++ date_str (now e))
      (email_body report_files) (attached w report_files) in
  let calls :=
    ((if py_eq_int port 465 then [SMTP_SSL host port]
      else SMTP host port
           :: (if truthy (default (JBool false) (dict_get kv "use_tls"))
               then [Starttls] else []))
     ++ (if truthy (field kv "username") && truthy (field kv "password")
         then [Login (field kv "username") (field kv "password")]
         else []))%list in
  let fault :=
    match first_fault e calls with
    | Some x => Some x
    | None => match flatten_fault e msg with
              | Some x => Some x
              | None => first_fault e [Sendmail sender to msg; Quit]
              end
    end in
  send_email (Some (JObj kv)) e report_files w
  = (match fault with
     | None => Ret true
     | Some x => if is_Exception x then Ret false else Raise x
     end,
     mk_world (pull_count w) (files w) (state_file w)
       (log w ++ match fault with
                 | None => [(INFO, EmailSent to_line)]
                 | Some x => if is_Exception x
                             then [(ERROR, EmailFailed x)] else []
                 end)
       (wire w
        ++ until_fault e
             (calls ++ (if flattens e msg
                        then [Sendmail sender to msg; Quit] else [])))).
Proof.
  intros Hfrom Hto Hjoin Hhost Hport Hfiles msg calls fault.
  subst fault.
  rewrite (send_email_run kv e report_files w sender to host port to_line
             Hfrom Hto Hjoin Hhost Hport Hfiles).
  fold msg calls. rewrite until_fault_app, flattens_fault.
  unfold try_except.
  unfold mbind at 1, M_bind at 1. rewrite perform_run.
  destruct (first_fault e calls) as [x|]; cbn beta iota.
  { destruct (is_Exception x); run; rewrite ?app_nil_r; reflexivity. }
  unfold mbind at 1, M_bind at 1. rewrite as_string_run.
  destruct (flatten_fault e msg) as [x|]; cbn beta iota.
  { cbn [until_fault]. rewrite !app_nil_r.
    destruct (is_Exception x); run; rewrite ?app_nil_r; reflexivity. }
  unfold mbind at 1, M_bind at 1. rewrite perform_run.
  cbn [pull_count files state_file log wire].
  destruct (first_fault e [Sendmail sender to msg; Quit]) as [x|];
    cbn beta iota.
  { destruct (is_Exception x); run; rewrite <- ?app_assoc, ?app_nil_r;
      reflexivity. }
  run. rewrite <- app_assoc. reflexivity.
Qed.

(** An empty [username] counts as none: the test is on the truth of the
    values, and the message goes out without [login]. *)
Example empty_username_no_login :
  let r := send_email (Some empty_username_config) scenario_env [] scenario_world in
  subscript empty_username_config "username" = Ret (JStr "")
  /\ subscript empty_username_config "password" = Ret (JStr "secret")
  /\ fst r = Ret true
  /\ forall u p, ~ In (Login u p) (wire (snd r)).
Proof.
  repeat split. intros u p. vm_compute.
  intros [H|[H|[H|[]]]]; discriminate H.
Qed.

Lemma until_fault_In e a l : In a (until_fault e l) -> In a l.
Proof.
  induction l as [|b l IH]; cbn [until_fault]; [easy|].
  intros [->|H]; [now left|]. right.
  destruct (smtp_fault e b); [easy|auto].
Qed.

Lemma until_fault_quiet_prefix e l1 l2 :
  List.Forall (fun a => smtp_fault e a = None) l1 ->
  until_fault e (l1 ++ l2) = (l1 ++ until_fault e l2)%list.
Proof.
  induction 1 as [|a l1 Ha _ IH]; cbn [app until_fault]; [reflexivity|].
  now rewrite Ha, IH.
Qed.

(** C7: the transport of the digest.  For a configuration that has [from],
    [to], [smtp_server] and [smtp_port], with recipients that can be joined:
    when the report files can all be read, the calls made on [smtplib] are,
    in this order and up to the first one that fails, [SMTP_SSL] if
    [smtp_port] equals 465, otherwise [SMTP] followed by [starttls] exactly
    when [use_tls] is true; [login] exactly when the values of [username] and
    [password] are both true (there and not empty); then, if the message can
    be flattened, [sendmail] and [quit].  So [SMTP_SSL] is called if and only
    if the port equals 465, and [SMTP] if and only if it does not; once the
    plain connection is open, [starttls] is called if and only if [use_tls]
    is true; once the transport is up, [login] is called if and only if
    both credentials are true; and [send_email] returns [True] exactly when
    the message can be flattened and none of the calls fails.  When a report
    file cannot be read, no call is made. *)
Theorem send_email_transport
    (kv : list (string * json)) (e : env) (report_files : list string)
    (w : world) (sender to host port : json) (to_line : string) :
  dict_get kv "from" = Some sender ->
  dict_get kv "to" = Some to ->
  join_comma to = Ret to_line ->
  dict_get kv "smtp_server" = Some host ->
  dict_get kv "smtp_port" = Some port ->
  let msg :=
    mk_email sender to_line
      ("CVE Vulnerability Report - " ++ date_str (now e))
      (email_body report_files)
      (map (fun p => (basename p, default "" (files w !! p))) report_files) in
  let use_tls := default (JBool false) (dict_get kv "use_tls") in
  let username := default JNull (dict_get kv "username") in
  let password := default JNull (dict_get kv "password") in
  let transport :=
    if py_eq_int port 465 then [SMTP_SSL host port]
    else SMTP host port :: (if truthy use_tls then [Starttls] else []) in
  let credentials :=
    if truthy username && truthy password
    then [Login username password] else [] in
  let made :=
    until_fault e
      (transport ++ credentials
       ++ (if flattens e msg then [Sendmail sender to msg; Quit] else [])) in
  let r := send_email (Some (JObj kv)) e report_files w in
  (Forall (readable e w) report_files ->
   wire (snd r) = (wire w ++ made)%list
   /\ (In (SMTP_SSL host port) made <-> py_eq_int port 465 = true)
   /\ (In (SMTP host port) made <-> py_eq_int port 465 = false)
   /\ (smtp_fault e (SMTP host port) = None ->
       (In Starttls made
        <-> py_eq_int port 465 = false /\ truthy use_tls = true))
   /\ (List.Forall (fun a => smtp_fault e a = None) transport ->
       ((exists u p, In (Login u p) made)
        <-> truthy username = true /\ truthy password = true))
   /\ (fst r = Ret true
       <-> flattens e msg = true
           /\ List.Forall (fun a => smtp_fault e a = None)
                (transport ++ credentials
                 ++ [Sendmail sender to msg; Quit])))
  /\ (~ Forall (readable e w) report_files ->
      wire (snd r) = wire w /\ fst r = Ret false).
Proof.
  intros Hfrom Hto Hjoin Hhost Hport msg use_tls username password
         transport credentials made r.
  split.
  - intros Hfiles.
    pose proof (send_email_result kv e report_files w sender to host port
                  to_line Hfrom Hto Hjoin Hhost Hport Hfiles) as Hr.
    cbv zeta in Hr. unfold attached, field in Hr.
    fold msg use_tls username password in Hr.
    fold transport credentials r in Hr.
    assert (Hw : wire (snd r) = (wire w ++ made)%list).
    { rewrite Hr. cbn [snd wire]. subst made. now rewrite <- app_assoc. }
    apply (f_equal fst) in Hr. cbn [fst] in Hr.
    split; [exact Hw|]. clear Hw.
    split; [|split; [|split; [|split]]].
    + split.
      * intros H. apply until_fault_In in H. subst transport credentials.
        destruct (py_eq_int port 465); [reflexivity|].
        destruct (truthy use_tls), (truthy username && truthy password),
          (flattens e msg); cbn in H; intuition discriminate.
      * intros H. subst made transport. rewrite H. left. reflexivity.
    + split.
      * intros H. apply until_fault_In in H. subst transport credentials.
        destruct (py_eq_int port 465); [|reflexivity].
        destruct (truthy username && truthy password), (flattens e msg);
          cbn in H; intuition discriminate.
      * intros H. subst made transport. rewrite H. left. reflexivity.
    + intros Hsmtp. split.
      * intros H. apply until_fault_In in H. subst transport credentials.
        destruct (py_eq_int port 465), (truthy use_tls),
          (truthy username && truthy password), (flattens e msg);
          cbn in H; intuition discriminate.
      * intros [Hp Ht]. subst made transport. rewrite Hp, Ht.
        cbn [app until_fault]. rewrite Hsmtp. right. left. reflexivity.
    + intros Hup. split.
      * intros (u & p & H). apply until_fault_In in H.
        subst transport credentials.
        destruct (truthy username), (truthy password); cbn [andb] in *;
          try (split; reflexivity); exfalso;
          destruct (py_eq_int port 465), (truthy use_tls), (flattens e msg);
          cbn in H; intuition discriminate.
      * intros [Hu Hp]. exists username, password. subst made.
        rewrite (until_fault_quiet_prefix e _ _ Hup). apply in_or_app. right.
        subst credentials. rewrite Hu, Hp. left. reflexivity.
    + rewrite flattens_fault, app_assoc, <- first_fault_none, first_fault_app.
      rewrite Hr.
      destruct (first_fault e (transport ++ credentials)) as [x|].
      { destruct (is_Exception x); split; try discriminate; intros [_ [=]]. }
      destruct (flatten_fault e msg) as [x|].
      { destruct (is_Exception x); split; try discriminate; intros [[=] _]. }
      destruct (first_fault e [Sendmail sender to msg; Quit]) as [x|].
      { destruct (is_Exception x); split; try discriminate; intros [_ [=]]. }
      split; auto.
  - intros Hfiles.
    destruct (read_attachments_unreadable e report_files w Hfiles)
      as (x & Hx & Hread).
    assert (Ht : truthy (JObj kv) = true).
    { destruct kv; [discriminate|reflexivity]. }
    subst r. unfold send_email. rewrite Ht. cbn [negb].
    cbn [subscript]. rewrite Hfrom, Hto. run. rewrite Hjoin. run.
    rewrite Hread. run. rewrite Hx. run. split; reflexivity.
Qed.

Lemma send_email_transport_witness :
  let kv := [("from", JStr "monitor@example.org");
             ("to", JArr [JStr "team@example.org"]);
             ("smtp_server", JStr "mail.example.org");
             ("smtp_port", JInt 587);
             ("use_tls", JBool true);
             ("username", JStr "monitor");
             ("password", JStr "secret")] in
  let e := mk_env scenario_time (Ret scenario_feed) None None
             (fun a => match a with
                       | Login _ _ => Some SMTPException
                       | _ => None
                       end)
             None [] no_mime_fault no_rank in
  wire (snd (send_email (Some (JObj kv)) e [] scenario_world))
  = [SMTP (JStr "mail.example.org") (JInt 587); Starttls;
     Login (JStr "monitor") (JStr "secret")]
  /\ wire (snd (send_email (Some ssl_config) scenario_env [] scenario_world))
     = [SMTP_SSL (JStr "mail.example.org") (JInt 465);
        Login (JStr "monitor") (JStr "secret");
        Sendmail (JStr "monitor@example.org") (JArr [JStr "team@example.org"])
          (mk_email (JStr "monitor@example.org") "team@example.org"
             "CVE Vulnerability Report - 2024-01-01"
             ("Daily CVE vulnerability report is attached." ++ NL ++ NL) []);
        Quit].
Proof.
  split.
  - refine (proj1 (proj1 (send_email_transport
             [("from", JStr "monitor@example.org");
              ("to", JArr [JStr "team@example.org"]);
              ("smtp_server", JStr "mail.example.org");
              ("smtp_port", JInt 587);
              ("use_tls", JBool true);
              ("username", JStr "monitor");
              ("password", JStr "secret")]
             (mk_env scenario_time (Ret scenario_feed) None None
                (fun a => match a with
                          | Login _ _ => Some SMTPException
                          | _ => None
                          end)
                None [] no_mime_fault no_rank)
             [] scenario_world
             (JStr "monitor@example.org") (JArr [JStr "team@example.org"])
             (JStr "mail.example.org") (JInt 587) "team@example.org"
             eq_refl eq_refl eq_refl eq_refl eq_refl)
           (List.Forall_nil _))).
  - refine (proj1 (proj1 (send_email_transport
             [("from", JStr "monitor@example.org");
              ("to", JArr [JStr "team@example.org"]);
              ("smtp_server", JStr "mail.example.org");
              ("smtp_port", JInt 465);
              ("username", JStr "monitor");
              ("password", JStr "secret")]
             scenario_env [] scenario_world
             (JStr "monitor@example.org") (JArr [JStr "team@example.org"])
             (JStr "mail.example.org") (JInt 465) "team@example.org"
             eq_refl eq_refl eq_refl eq_refl eq_refl)
           (List.Forall_nil _))).
Defined.

(** ** More on the state file *)

(** X6: a counter that is not a number stops every report.  With entries in
    the feed and a counter that is neither a number nor a boolean (a state
    file may hold any value under [pull_count]), [generate_markdown] raises
    [TypeError] and changes nothing: no file, no log line, no save. *)
Theorem generate_markdown_bad_counter
    (url : string) (e : env) (f : feed) (w : world) :
  entries f <> [] ->
  counts (pull_count w) = false ->
  generate_markdown url e (Some f) w = (Raise TypeError, w).
Proof.
  intros Hne Hc. destruct w as [pc fs st lg wr]. cbn [pull_count] in Hc.
  unfold generate_markdown, no_entries.
  destruct (entries f) as [|en ens]; [congruence|].
  run. destruct pc; try discriminate Hc; reflexivity.
Qed.

Lemma generate_markdown_bad_counter_witness :
  let w := snd (init (mk_world (JInt 0) ∅
                        (SDoc (JObj [("pull_count", JStr "5")])) [] [])) in
  pull_count w = JStr "5"
  /\ generate_markdown "u" scenario_env (Some scenario_feed) w
     = (Raise TypeError, w).
Proof.
  split; [reflexivity|].
  apply (generate_markdown_bad_counter "u" scenario_env scenario_feed);
    [discriminate | reflexivity].
Defined.

(** A counter that [+= 1] accepts is incremented, so [counts] is exact. *)
Lemma add_one_counts (v : json) :
  counts v = true <-> exists n, add_one v = Ret n.
Proof.
  destruct v; cbn [counts add_one]; split; try discriminate; eauto;
    intros [n H]; discriminate H.
Qed.

(** A float is a number for [+= 1]: a state file that holds
    [{"pull_count": 5.0}] gives the report number [6.0], in the name of the
    file and in the state file. *)
Example generate_markdown_float_counter :
  let w := snd (init (mk_world (JInt 0) ∅
                        (SDoc (JObj [("pull_count", JFloat 5%float)])) [] [])) in
  let r := generate_markdown "u" scenario_env (Some scenario_feed) w in
  fst r = Ret (Some "data/2024-01-01-000005-pull6.0.md")
  /\ pull_count (snd r) = JFloat 6%float
  /\ state_file (snd r) = SDoc (JObj [("pull_count", JFloat 6%float)]).
Proof. vm_compute. repeat split. Qed.

(** X7: the gap between the report and the save.  When the report is written
    and the save that follows fails, the file stays on disk.  If the state
    file could not be opened, it keeps the old number: a monitor started
    afterwards gives its first report the same number, and at the same clock
    reading the same name, so the earlier file is replaced.  If the save fails
    after the open with a part of the document on disk, the monitor started
    afterwards finds no valid state and starts at 0: its first report has the
    number 1.  If the whole document is on disk, it goes on with the number
    after. *)
Theorem restart_after_failed_save
    (url : string) (e1 e2 : env) (f1 f2 : feed) (k : Z) (flt : fault)
    (w : world) :
  pull_count w = JInt k -> state_file w = persisted k ->
  entries f1 <> [] -> report_write e1 = None -> state_write e1 = Some flt ->
  succeeds (e2, f2) ->
  let w1 := snd (generate_markdown url e1 (Some f1) w) in
  let w2 := snd (init w1) in
  let r := generate_markdown url e2 (Some f2) w2 in
  let next := match flt with
              | AtOpen _ => (k + 1)%Z
              | AfterOpen (Some _) _ => 1%Z
              | AfterOpen None _ => (k + 2)%Z
              end in
  fst (generate_markdown url e1 (Some f1) w)
  = Raise (match flt with AtOpen x | AfterOpen _ x => x end)
  /\ files w1 !! report_filename (now e1) (NInt (k + 1))
     = Some (report_text url (now e1) (NInt (k + 1)) (entries f1))
  /\ state_file w1 = match flt with
                     | AtOpen _ => persisted k
                     | AfterOpen (Some _) _ => SGarbage
                     | AfterOpen None _ => persisted (k + 1)
                     end
  /\ fst (init w1) = Ret tt
  /\ pull_count w2 = JInt (next - 1)
  /\ fst r = Ret (Some (report_filename (now e2) (NInt next)))
  /\ (now e2 = now e1 -> next = (k + 1)%Z ->
      files (snd r) !! report_filename (now e1) (NInt (k + 1))
      = Some (report_text url (now e1) (NInt (k + 1)) (entries f2))).
Proof.
  intros Hk Hst Hne Hr Hs Hok.
  assert (Hn : add_one (pull_count w) = Ret (NInt (k + 1))) by now rewrite Hk.
  destruct (generate_markdown_cases url e1 f1 _ w Hne Hn)
    as (_ & _ & H3 & H4 & _).
  assert (Hw1 : generate_markdown url e1 (Some f1) w
                = (Raise (match flt with AtOpen x | AfterOpen _ x => x end),
                   mk_world (JInt (k + 1))
                     (<[report_filename (now e1) (NInt (k + 1)) :=
                          report_text url (now e1) (NInt (k + 1)) (entries f1)]>
                        (files w))
                     (match flt with
                      | AtOpen _ => persisted k
                      | AfterOpen (Some _) _ => SGarbage
                      | AfterOpen None _ => persisted (k + 1)
                      end)
                     (log w ++ [(INFO, GeneratedFile
                                         (report_filename (now e1) (NInt (k + 1))))])
                     (wire w))).
  { destruct flt as [x|part x].
    - rewrite (H3 x Hr Hs), Hst. reflexivity.
    - rewrite (H4 part x Hr Hs). destruct part; reflexivity. }
  clear H3 H4 Hs.
  intros w1 w2 r next.
  assert (Hnext : forall w0, pull_count w0 = JInt (next - 1) ->
            generate_markdown url e2 (Some f2) w0
            = (Ret (Some (report_filename (now e2) (NInt next))),
               mk_world (JInt next)
                 (<[report_filename (now e2) (NInt next) :=
                      report_text url (now e2) (NInt next) (entries f2)]>
                    (files w0))
                 (persisted next)
                 (log w0 ++ [(INFO, GeneratedFile
                                      (report_filename (now e2) (NInt next)));
                             (INFO, SavedState (JInt next))])
                 (wire w0))).
  { intros w0 Hw0.
    rewrite (generate_markdown_ok url e2 f2 (next - 1) w0 Hw0 Hok).
    replace (next - 1 + 1)%Z with next by lia. reflexivity. }
  assert (Hinit : fst (init w1) = Ret tt /\ pull_count w2 = JInt (next - 1)).
  { subst w2 w1 next. rewrite Hw1. cbn [snd].
    destruct flt as [x|[p|] x]; unfold init, load_state, persisted; run;
      cbn [get_method dict_get String.eqb Ascii.eqb Bool.eqb from_option id];
      run; (split; [reflexivity|]); f_equal; lia. }
  destruct Hinit as [Hi Hpc].
  subst r. rewrite (Hnext w2 Hpc). cbn [fst snd files].
  subst w1. rewrite Hw1. cbn [fst snd files state_file].
  split; [reflexivity|]. split; [apply lookup_insert_eq|].
  split; [reflexivity|]. split; [rewrite Hw1 in Hi; exact Hi|].
  split; [exact Hpc|]. split; [reflexivity|].
  intros -> ->. apply lookup_insert_eq.
Qed.

Lemma restart_after_failed_save_witness :
  let e1 := mk_env scenario_time (Ret scenario_feed) None
                   (Some (AfterOpen (Some 3) OSError)) no_fault None []
                   no_mime_fault no_rank in
  let w1 := snd (generate_markdown "u" e1 (Some scenario_feed) scenario_world) in
  let r := generate_markdown "u" scenario_env (Some scenario_feed) (snd (init w1)) in
  state_file w1 = SGarbage
  /\ pull_count (snd (init w1)) = JInt 0
  /\ fst r = Ret (Some "data/2024-01-01-000005-pull1.md").
Proof.
  assert (Hok : succeeds (scenario_env, scenario_feed)).
  { split; [reflexivity|]. split; [reflexivity|discriminate]. }
  assert (Hne : entries scenario_feed <> []) by discriminate.
  destruct (restart_after_failed_save "u"
              (mk_env scenario_time (Ret scenario_feed) None
                      (Some (AfterOpen (Some 3) OSError)) no_fault None []
                      no_mime_fault no_rank)
              scenario_env scenario_feed scenario_feed 5
              (AfterOpen (Some 3) OSError) scenario_world
              eq_refl eq_refl Hne eq_refl eq_refl Hok)
    as (_ & _ & Hst & _ & Hpc & Hr & _).
  split; [exact Hst|]. split; [exact Hpc | exact Hr].
Defined.

(** ** More on the fetch cycle *)

(** X8: [fetch_rss_feed] hands a feed on exactly when the parser returned it
    without the [bozo] flag; whatever the parser does, the counter, the
    files, the state file and the mail traffic stay as they were. *)
Theorem fetch_rss_feed_result (url : string) (e : env) (w : world) (f : feed) :
  (fst (fetch_rss_feed url e w) = Ret (Some f)
   <-> parse_result e = Ret f /\ bozo f = None)
  /\ pull_count (snd (fetch_rss_feed url e w)) = pull_count w
  /\ files (snd (fetch_rss_feed url e w)) = files w
  /\ state_file (snd (fetch_rss_feed url e w)) = state_file w
  /\ wire (snd (fetch_rss_feed url e w)) = wire w.
Proof.
  destruct w as [pc fs st lg wr]. unfold fetch_rss_feed. run.
  destruct (parse_result e) as [f'|x]; run.
  - destruct (bozo f') as [b|] eqn:Hb; run; cbn [fst snd];
      (split; [split|repeat split]).
    + discriminate.
    + intros [[= ->] H]. congruence.
    + intros [= ->]. auto.
    + intros [[= ->] _]. reflexivity.
  - destruct (is_Exception x); run; cbn [fst snd];
      (split; [split|repeat split]); try discriminate;
      intros [H _]; discriminate H.
Qed.

(** X9: when the cycle returns a name, the report is there and the state
    agrees with it.  The parser returned an unflagged feed with entries, the
    file of that name holds the report for the new number, and the counter
    and the state file both hold that number. *)
Theorem run_rss_update_returns_name
    (url : string) (e : env) (w w' : world) (name : string) :
  run_rss_update url e w = (Ret [name], w') ->
  exists f n,
    parse_result e = Ret f /\ bozo f = None /\ entries f <> []
    /\ add_one (pull_count w) = Ret n
    /\ name = report_filename (now e) n
    /\ files w' !! name = Some (report_text url (now e) n (entries f))
    /\ pull_count w' = number_json n
    /\ state_file w' = SDoc (JObj [("pull_count", number_json n)]).
Proof.
  destruct w as [pc fs st lg wr]. unfold run_rss_update, fetch_rss_feed. run.
  destruct (parse_result e) as [f|x] eqn:Hp; run.
  2: { destruct (is_Exception x); run; discriminate. }
  destruct (bozo f) as [b|] eqn:Hb; run; [discriminate|].
  unfold generate_markdown, no_entries.
  destruct (entries f) as [|en ens] eqn:He; run; [discriminate|].
  destruct (add_one pc) as [n|y] eqn:Hn; run; [|discriminate].
  destruct (report_write e) as [[x|[p|] x]|]; run; try discriminate.
  destruct (state_write e) as [[x|[p|] x]|]; run; try discriminate.
  intros [= <- <-]. exists f, n. cbn [files pull_count state_file].
  rewrite He. repeat split; try reflexivity; try assumption.
  - discriminate.
  - apply lookup_insert_eq.
Qed.

Lemma run_rss_update_returns_name_witness :
  exists f n,
    parse_result scenario_env = Ret f /\ bozo f = None /\ entries f <> []
    /\ add_one (pull_count scenario_world) = Ret n
    /\ "data/2024-01-01-000005-pull6.md" = report_filename (now scenario_env) n.
Proof.
  destruct (run_rss_update_returns_name "u" scenario_env scenario_world
              (snd (run_rss_update "u" scenario_env scenario_world))
              "data/2024-01-01-000005-pull6.md" eq_refl)
    as (f & n & H1 & H2 & H3 & H4 & H5 & _).
  exists f, n. auto.
Defined.

(** X10: the fetch cycle never sends mail: whatever happens in it, no call is
    made on [smtplib]. *)
Theorem run_rss_update_no_mail (url : string) (e : env) (w : world) :
  wire (snd (run_rss_update url e w)) = wire w.
Proof.
  destruct w as [pc fs st lg wr]. unfold run_rss_update, fetch_rss_feed. run.
  destruct (parse_result e) as [f|x]; run.
  2: { destruct (is_Exception x); reflexivity. }
  destruct (bozo f); run; [reflexivity|].
  unfold generate_markdown, no_entries.
  destruct (entries f); run; [reflexivity|].
  destruct (add_one pc); run; [|reflexivity].
  destruct (report_write e) as [[x|[p|] x]|]; run; try reflexivity.
  destruct (state_write e) as [[x|[p|] x]|]; reflexivity.
Qed.

(** ** More on the digest *)

Section Caught.

Context {A B : Type}.

Lemma caught_ret (a : A) : caught (mret a : M A).
Proof. intros w x w'. discriminate. Qed.

Lemma caught_lift (o : outcome A) :
  (forall x, o = Raise x -> is_Exception x = true) -> caught (lift o).
Proof. intros H w x w' [= -> _]. now apply H. Qed.

Lemma caught_bind (m : M A) (k : A -> M B) :
  caught m -> (forall a, caught (k a)) -> caught (m ≫= k).
Proof.
  intros Hm Hk w x w'. unfold mbind, M_bind.
  destruct (m w) as [[a|y] w1] eqn:Hmw.
  - apply Hk.
  - intros [= <- <-]. exact (Hm _ _ _ Hmw).
Qed.

End Caught.

Lemma caught_subscript v k : caught (lift (subscript v k)).
Proof.
  apply caught_lift. intros x.
  destruct v; cbn; try (intros [= <-]; reflexivity).
  destruct (dict_get kv k); [discriminate|intros [= <-]; reflexivity].
Qed.

Lemma caught_get_method v k d : caught (lift (get_method v k d)).
Proof.
  apply caught_lift. intros x.
  destruct v; cbn; intros [= <-]; reflexivity.
Qed.

Lemma caught_join_comma v : caught (lift (join_comma v)).
Proof.
  apply caught_lift. intros x.
  destruct v; cbn; try (intros [= <-]; reflexivity).
  destruct (all_str l); [discriminate|intros [= <-]; reflexivity].
Qed.

Lemma caught_logger l m : caught (logger l m).
Proof. intros w x w'. discriminate. Qed.

Lemma caught_read_file e p : caught (read_file e p).
Proof.
  intros w x w'. unfold read_file.
  destruct (is_dir e p); [intros [= <- _]; reflexivity|].
  destruct (files w !! p); [discriminate|intros [= <- _]; reflexivity].
Qed.

Lemma caught_smtp e a : ordinary_faults e -> caught (smtp e a).
Proof.
  intros [He _] w x w'. unfold smtp.
  destruct (smtp_fault e a) as [y|] eqn:Hy; [|discriminate].
  intros [= <- _]. exact (He _ _ Hy).
Qed.

Lemma caught_as_string e msg : ordinary_faults e -> caught (as_string e msg).
Proof.
  intros [_ He] w x w'. rewrite as_string_run. unfold flatten_fault.
  destruct (msg_from msg); try (intros [= <- _]; reflexivity);
    (destruct (mime_fault e msg) as [y|] eqn:Hy; [|discriminate]);
    intros [= <- _]; exact (He _ _ Hy).
Qed.

Create HintDb caught.

#[local] Hint Resolve caught_ret caught_subscript caught_get_method
  caught_join_comma caught_logger caught_read_file caught_smtp
  caught_as_string : caught.

Ltac caught :=
  repeat first
    [ apply caught_bind; [|intros ?]
    | solve [auto with caught]
    | match goal with
      | |- caught (if ?b then _ else _) => destruct b
      end ].

Lemma caught_read_attachments e l : caught (read_attachments e l).
Proof. induction l as [|p l IH]; cbn [read_attachments]; caught. Qed.

#[local] Hint Resolve caught_read_attachments : caught.

Lemma caught_connect e cfg : ordinary_faults e -> caught (connect e cfg).
Proof. intros He. unfold connect. caught. Qed.

Lemma caught_login e cfg : ordinary_faults e -> caught (login e cfg).
Proof. intros He. unfold login. caught. Qed.

#[local] Hint Resolve caught_connect caught_login : caught.

Lemma send_email_returns cfg e l w :
  ordinary_faults e ->
  exists b w', send_email cfg e l w = (Ret b, w').
Proof.
  intros He. unfold send_email.
  destruct cfg as [cfg|]; [|eexists _, _; reflexivity].
  destruct (truthy cfg); cbn [negb]; [|eexists _, _; reflexivity].
  unfold try_except.
  match goal with
  | |- context [let (_, _) := ?m w in _] =>
      assert (Hc : caught m) by caught;
      destruct (m w) as [[b|x] w1] eqn:Hm
  end.
  - eexists _, _; reflexivity.
  - rewrite (Hc _ _ _ Hm). eexists _, _; reflexivity.
Qed.

Lemma run_daily_email_unfold cfg e w :
  listdir_fault e = None ->
  run_daily_email cfg e w
  = (let (o, w') :=
       send_email cfg e (todays_reports e w)
         (mk_world (pull_count w) (files w) (state_file w)
                   (log w ++ [(INFO, StartingDailyEmail)]) (wire w)) in
     match o with
     | Ret _ => (Ret tt, w')
     | Raise x => (Raise x, w')
     end).
Proof.
  intros Hl. destruct w as [pc fs st lg wr]. unfold run_daily_email. run.
  rewrite Hl. run. reflexivity.
Qed.

Lemma run_daily_email_no_listing cfg e w x :
  listdir_fault e = Some x ->
  run_daily_email cfg e w
  = (Raise x,
     mk_world (pull_count w) (files w) (state_file w)
              (log w ++ [(INFO, StartingDailyEmail)]) (wire w)).
Proof.
  intros Hl. destruct w as [pc fs st lg wr]. unfold run_daily_email. run.
  rewrite Hl. reflexivity.
Qed.

Lemma run_daily_email_returns cfg e w :
  ordinary_faults e -> listdir_fault e = None ->
  exists w', run_daily_email cfg e w = (Ret tt, w').
Proof.
  intros He Hl. rewrite (run_daily_email_unfold _ _ _ Hl).
  match goal with
  | |- context [send_email cfg e ?l ?w0] =>
      destruct (send_email_returns cfg e l w0 He) as (b & w' & ->)
  end.
  now exists w'.
Qed.

(** X11: when the digest does not raise.  When the mail server and the
    [email] package fail with ordinary exceptions only, [send_email] returns
    a boolean, whatever the configuration, the files and the server do.
    [run_daily_email] returns as well when [data/] can be listed; it lists
    [data/] outside of any [try], and what [os.listdir] raises leaves it,
    before any mail is sent. *)
Theorem digest_never_raises
    (cfg : option json) (e : env) (report_files : list string) (w : world) :
  ordinary_faults e ->
  (exists b w', send_email cfg e report_files w = (Ret b, w'))
  /\ (listdir_fault e = None ->
      exists w', run_daily_email cfg e w = (Ret tt, w'))
  /\ (forall x, listdir_fault e = Some x ->
      fst (run_daily_email cfg e w) = Raise x
      /\ wire (snd (run_daily_email cfg e w)) = wire w).
Proof.
  intros He. split; [now apply send_email_returns|]. split.
  - now apply run_daily_email_returns.
  - intros x Hl. rewrite (run_daily_email_no_listing _ _ _ _ Hl).
    split; reflexivity.
Qed.

Lemma digest_never_raises_witness :
  (exists w',
     run_daily_email (Some ssl_config)
       (mk_env scenario_time (Ret scenario_feed) None None
               (fun _ => Some SMTPException) None [] no_mime_fault no_rank)
       scenario_world
     = (Ret tt, w'))
  /\ fst (run_daily_email (Some ssl_config)
            (mk_env scenario_time (Ret scenario_feed) None None
                    no_fault (Some FileNotFoundError) [] no_mime_fault no_rank)
            scenario_world)
     = Raise FileNotFoundError.
Proof.
  split.
  - apply (digest_never_raises (Some ssl_config)
             (mk_env scenario_time (Ret scenario_feed) None None
                     (fun _ => Some SMTPException) None [] no_mime_fault no_rank)
             [] scenario_world).
    + split; [intros a x [= <-]; reflexivity | intros m x [=]].
    + reflexivity.
  - apply (digest_never_raises (Some ssl_config)
             (mk_env scenario_time (Ret scenario_feed) None None
                     no_fault (Some FileNotFoundError) [] no_mime_fault no_rank)
             [] scenario_world).
    + split; [intros a x [=] | intros m x [=]].
    + reflexivity.
Defined.

Lemma first_fault_quiet e calls :
  (forall a, smtp_fault e a = None) -> first_fault e calls = None.
Proof.
  intros H. induction calls as [|a calls IH]; cbn [first_fault]; [reflexivity|].
  now rewrite H.
Qed.

Lemma until_fault_quiet e calls :
  (forall a, smtp_fault e a = None) -> until_fault e calls = calls.
Proof.
  intros H. induction calls as [|a calls IH]; cbn [until_fault]; [reflexivity|].
  now rewrite H, IH.
Qed.

Lemma send_email_ok
    (kv : list (string * json)) (e : env) (report_files : list string)
    (w : world) (s : string) (to host port : json) (to_line : string) :
  dict_get kv "from" = Some (JStr s) ->
  dict_get kv "to" = Some to ->
  join_comma to = Ret to_line ->
  dict_get kv "smtp_server" = Some host ->
  dict_get kv "smtp_port" = Some port ->
  Forall (readable e w) report_files ->
  (forall a, smtp_fault e a = None) ->
  let msg :=
    mk_email (JStr s) to_line
      ("CVE Vulnerability Report - " ++ date_str (now e))
      (email_body report_files)
      (map (fun p => (basename p, default "" (files w !! p))) report_files) in
  mime_fault e msg = None ->
  fst (send_email (Some (JObj kv)) e report_files w) = Ret true
  /\ In (Sendmail (JStr s) to msg)
        (wire (snd (send_email (Some (JObj kv)) e report_files w)))
  /\ log (snd (send_email (Some (JObj kv)) e report_files w))
     = (log w ++ [(INFO, EmailSent to_line)])%list.
Proof.
  intros Hfrom Hto Hjoin Hhost Hport Hfiles Hsmtp msg Hmime.
  rewrite (send_email_result kv e report_files w (JStr s) to host port to_line
             Hfrom Hto Hjoin Hhost Hport Hfiles).
  change (attached w report_files) with
    (map (fun p => (basename p, default "" (files w !! p))) report_files).
  fold msg. rewrite flattens_fault.
  rewrite !(first_fault_quiet e _ Hsmtp), (until_fault_quiet e _ Hsmtp).
  unfold flatten_fault. cbn [msg_from msg]. rewrite Hmime.
  cbn [fst snd wire log]. split; [reflexivity|]. split; [|reflexivity].
  apply in_or_app. right. apply in_or_app. right. left. reflexivity.
Qed.



(** A sender that is not a string stops the message before [sendmail]: the
    connection is made, then [msg.as_string()] raises inside the [try]. *)
Example send_email_number_as_sender :
  let cfg := JObj [("from", JInt 5);
                   ("to", JArr [JStr "team@example.org"]);
                   ("smtp_server", JStr "mail.example.org");
                   ("smtp_port", JInt 465)] in
  let r := send_email (Some cfg) scenario_env [] scenario_world in
  fst r = Ret false
  /\ wire (snd r) = [SMTP_SSL (JStr "mail.example.org") (JInt 465)]
  /\ log (snd r) = [(ERROR, EmailFailed AttributeError)].
Proof. vm_compute. repeat split. Qed.

Lemma unreadable_of_missing e w l :
  ~ Forall (fun p => is_Some (files w !! p)) l -> ~ Forall (readable e w) l.
Proof.
  intros H Hr. apply H. eapply Forall_impl; [exact Hr|].
  intros p [_ Hp]. exact Hp.
Qed.

(** X13: no connection without a complete message.  When the configuration
    lacks one of [from], [to], [smtp_server] and [smtp_port], or a report
    file does not exist, [send_email] returns [False] and has made no call
    on [smtplib]. *)
Theorem send_email_incomplete
    (kv : list (string * json)) (e : env) (report_files : list string)
    (w : world) :
  kv <> [] ->
  dict_get kv "from" = None \/ dict_get kv "to" = None
  \/ dict_get kv "smtp_server" = None \/ dict_get kv "smtp_port" = None
  \/ ~ Forall (fun p => is_Some (files w !! p)) report_files ->
  fst (send_email (Some (JObj kv)) e report_files w) = Ret false
  /\ wire (snd (send_email (Some (JObj kv)) e report_files w)) = wire w.
Proof.
  intros Hkv H.
  assert (Ht : truthy (JObj kv) = true).
  { destruct kv; [congruence|reflexivity]. }
  unfold send_email. rewrite Ht. cbn [negb].
  unfold connect. cbn [subscript]. run.
  destruct (dict_get kv "from") as [sender|]; run; [|auto].
  destruct (dict_get kv "to") as [to|]; run; [|auto].
  destruct (join_comma to) as [to_line|x] eqn:Hj; run.
  2: { assert (Hx : is_Exception x = true).
       { apply (caught_join_comma to w x w). unfold lift. now rewrite Hj. }
       rewrite Hx. auto. }
  destruct (decide (Forall (readable e w) report_files)) as [Hf|Hf].
  2: { destruct (read_attachments_unreadable _ _ _ Hf) as (x & Hx & ->).
       run. rewrite Hx. auto. }
  rewrite (read_attachments_ok _ _ _ Hf). run.
  destruct (dict_get kv "smtp_port") as [port|]; run; [|auto].
  destruct (py_eq_int port 465); run;
    (destruct (dict_get kv "smtp_server") as [host|]; run; [|auto]);
    destruct H as [H|[H|[H|[H|H]]]]; try discriminate H;
    elim (unreadable_of_missing e _ _ H Hf).
Qed.

Lemma send_email_incomplete_witness :
  let cfg := [("from", JStr "monitor@example.org"); ("smtp_port", JInt 465)] in
  fst (send_email (Some (JObj cfg)) scenario_env [] scenario_world) = Ret false
  /\ wire (snd (send_email (Some (JObj cfg)) scenario_env [] scenario_world)) = [].
Proof.
  apply (send_email_incomplete
           [("from", JStr "monitor@example.org"); ("smtp_port", JInt 465)]
           scenario_env [] scenario_world).
  - discriminate.
  - right. left. reflexivity.
Defined.

(** ** What the digest collects *)

Lemma strip_prefix_Some pre s r :
  strip_prefix pre s = Some r -> s = pre ++ r.
Proof.
  revert s. induction pre as [|a pre IH]; intros s; cbn [strip_prefix].
  - intros [= <-]. reflexivity.
  - destruct s as [|b s]; [discriminate|].
    destruct (Ascii.eqb_spec a b) as [->|]; [|discriminate].
    intros H. apply IH in H as ->. reflexivity.
Qed.

Lemma strip_prefix_app pre r : strip_prefix pre (pre ++ r) = Some r.
Proof.
  induction pre as [|a pre IH]; [now destruct r|].
  change (String a pre ++ r) with (String a (pre ++ r)).
  cbn [strip_prefix]. now rewrite Ascii.eqb_refl.
Qed.

Lemma is_dir_spec e n : is_dir e ("data/" ++ n) = true <-> In n (subdirs e).
Proof.
  unfold is_dir. rewrite existsb_exists. split.
  - intros (p & Hp & Heq). apply in_map_iff in Hp as (d & <- & Hd).
    apply String.eqb_eq in Heq.
    apply (f_equal (strip_prefix "data/")) in Heq.
    rewrite !strip_prefix_app in Heq. now injection Heq as ->.
  - intros Hn. exists ("data/" ++ n). split; [|apply String.eqb_refl].
    apply in_map_iff. eauto.
Qed.

(** The names listed under [data/] are the state file, the files of the
    directory itself, and its directories. *)
Lemma listdir_data_names e w n :
  n ∈ listdir_data e w ->
  n = "state.json" \/ is_Some (files w !! ("data/" ++ n)) \/ In n (subdirs e).
Proof.
  unfold listdir_data. rewrite !elem_of_app. intros [H|[H|H]].
  - left. destruct (state_file w); [inversion H| | |];
      apply list_elem_of_singleton in H; exact H.
  - right. left. apply list_elem_of_omap in H as (p & Hp & Hn).
    apply list_elem_of_In, in_map_iff in Hp as ([p' text] & <- & Hin).
    apply list_elem_of_In, elem_of_map_to_list in Hin. cbn [fst] in Hn.
    destruct (strip_prefix "data/" p') as [n'|] eqn:Hs; [|discriminate].
    destruct (has_slash n'); [discriminate|]. injection Hn as ->.
    apply strip_prefix_Some in Hs as ->. eauto.
  - right. right. now apply list_elem_of_In.
Qed.


(** The order of the listing does not change what is listed. *)
Lemma listdir_order_elem e l n : n ∈ listdir_order e l <-> n ∈ l.
Proof. unfold listdir_order. now rewrite merge_sort_Permutation. Qed.

Lemma todays_reports_spec e w p :
  In p (todays_reports e w)
  <-> exists n, p = "data/" ++ n /\ n ∈ listdir_data e w
                /\ startswith n (date_str (now e)) = true
                /\ endswith n ".md" = true.
Proof.
  unfold todays_reports. rewrite in_map_iff. split.
  - intros (n & <- & Hn). apply filter_In in Hn as [Hn Hc].
    apply andb_prop in Hc as [H1 H2]. exists n.
    rewrite <- (listdir_order_elem e), list_elem_of_In. auto.
  - intros (n & -> & Hn & H1 & H2). exists n. split; [reflexivity|].
    apply filter_In.
    rewrite <- list_elem_of_In, (listdir_order_elem e), H1, H2. auto.
Qed.

(** Without a directory named like a report of today, what the digest
    collects can be read. *)
Lemma todays_reports_readable e w :
  no_report_dir e -> Forall (readable e w) (todays_reports e w).
Proof.
  intros Hd. apply List.Forall_forall. intros p H.
  apply todays_reports_spec in H as (n & -> & Hn & H1 & H2).
  assert (Hnd : ~ In n (subdirs e)).
  { intros Hin. specialize (Hd n Hin). rewrite H1, H2 in Hd. discriminate. }
  split.
  - destruct (is_dir e ("data/" ++ n)) eqn:E; [|reflexivity].
    apply is_dir_spec in E. contradiction.
  - apply listdir_data_names in Hn as [->|[Hn|Hn]];
      [discriminate H2 | exact Hn | contradiction].
Qed.



(** A directory under [data/] named like a report of today is collected as
    well; [send_email] fails to open it and no mail is sent. *)
Example digest_with_directory :
  let e := mk_env (mk_utc 2024 1 1 2 0 0) (Ret scenario_feed) None None
                  no_fault None ["2024-01-01-dir.md"] no_mime_fault no_rank in
  let r := run_daily_email (Some ssl_config) e scenario_world in
  todays_reports e scenario_world = ["data/2024-01-01-dir.md"]
  /\ fst r = Ret tt
  /\ wire (snd r) = []
  /\ log (snd r) = [(INFO, StartingDailyEmail);
                    (ERROR, EmailFailed IsADirectoryError)].
Proof. vm_compute. repeat split. Qed.

(** The reports are attached in the order in which [os.listdir] gives the
    names, which is not fixed. *)
Example digest_order :
  let w := mk_world (JInt 7)
             (<["data/2024-01-01-000005-pull6.md" := "six"]>
                (<["data/2024-01-01-000105-pull7.md" := "seven"]> ∅))
             (persisted 7) [] [] in
  let first (name : string) : env :=
    mk_env (mk_utc 2024 1 1 2 0 0) (Ret scenario_feed) None None no_fault
           None [] no_mime_fault
           (fun n => if String.eqb n name then 0%nat else 1%nat) in
  todays_reports (first "2024-01-01-000005-pull6.md") w
  = ["data/2024-01-01-000005-pull6.md"; "data/2024-01-01-000105-pull7.md"]
  /\ todays_reports (first "2024-01-01-000105-pull7.md") w
     = ["data/2024-01-01-000105-pull7.md"; "data/2024-01-01-000005-pull6.md"].
Proof. vm_compute. split; reflexivity. Qed.











(** ** When the loop keeps running *)

Lemma run_rss_update_calm url e w :
  counts (pull_count w) = true -> calm e ->
  exists names w',
    run_rss_update url e w = (Ret names, w') /\ counts (pull_count w') = true.
Proof.
  intros Hc (Hr & Hs & _ & Hp & _). destruct w as [pc fs st lg wr].
  cbn [pull_count] in Hc.
  unfold run_rss_update, fetch_rss_feed. run.
  destruct (parse_result e) as [f|x] eqn:Hpe; run.
  2: { rewrite (Hp x eq_refl). run. eauto. }
  destruct (bozo f); run; [eauto|].
  unfold generate_markdown, no_entries.
  destruct (entries f); run; [eauto|].
  destruct pc; try discriminate Hc; cbn [add_one]; run;
    rewrite Hr; run; rewrite Hs; run; eauto.
Qed.

Lemma run_daily_email_calm cfg e w :
  ordinary_faults e -> listdir_fault e = None ->
  exists w', run_daily_email cfg e w = (Ret tt, w')
             /\ pull_count w' = pull_count w.
Proof.
  intros He Hl. pose proof (keeps_run_daily_email cfg e w) as (Hk & _).
  destruct (run_daily_email_returns cfg e w He Hl) as (w' & Hrun).
  rewrite Hrun in Hk. cbn [snd] in Hk. exists w'. split; [exact Hrun|exact Hk].
Qed.

Lemma run_pending_calm url cfg due : forall w,
  counts (pull_count w) = true -> Forall (fun je => calm je.2) due ->
  exists w', run_pending url cfg due w = (Ret tt, w')
             /\ counts (pull_count w') = true.
Proof.
  induction due as [|[j e] due IH]; intros w Hc Hd; [now exists w|].
  apply Forall_cons in Hd as [He Hd]. cbn [snd] in He.
  cbn [run_pending run_job]. destruct j.
  - destruct (run_rss_update_calm url e w Hc He) as (names & w1 & Hrun & Hc1).
    run. cbn [run_job]. run. rewrite Hrun. run. exact (IH w1 Hc1 Hd).
  - destruct He as (_ & _ & Hl & _ & He).
    destruct (run_daily_email_calm cfg e w He Hl) as (w1 & Hrun & Hpc).
    run. cbn [run_job]. rewrite Hrun. run. apply IH; [now rewrite Hpc|exact Hd].
Qed.

Lemma loop_calm url cfg ticks : forall w,
  counts (pull_count w) = true ->
  Forall (Forall (fun je => calm je.2)) ticks ->
  exists w', loop url cfg ticks w = (Ret tt, w').
Proof.
  induction ticks as [|due ticks IH]; intros w Hc Ht; [now exists w|].
  apply Forall_cons in Ht as [Hd Ht]. cbn [loop].
  destruct (run_pending_calm url cfg due w Hc Hd) as (w1 & Hrun & Hc1).
  run. rewrite Hrun. run. exact (IH w1 Hc1 Ht).
Qed.

(** X16: when the loop keeps running.  With a counter that is a number or a
    boolean, and as long as the report and the state file are written
    without a fault, [data/] can be listed, and the parser, the mail server
    and the [email] package fail with ordinary exceptions only, no task ends
    the loop: [run_forever] is still running after any number of ticks,
    whatever the feed holds and whatever the mail configuration is. *)
Theorem run_forever_keeps_running
    (url : string) (cfg : option json) (first : env)
    (ticks : list (list (job * env))) (w : world) :
  counts (pull_count w) = true ->
  calm first ->
  Forall (Forall (fun je => calm je.2)) ticks ->
  exists w', run_forever url cfg first ticks w = (Ret tt, w').
Proof.
  intros Hc Hf Ht. unfold run_forever. run.
  match goal with
  | |- context [run_rss_update url first ?w0] =>
      destruct (run_rss_update_calm url first w0 Hc Hf)
        as (names & w1 & Hrun & Hc1)
  end.
  rewrite Hrun. run. exact (loop_calm url cfg ticks w1 Hc1 Ht).
Qed.

Lemma run_forever_keeps_running_witness :
  let bad := mk_env scenario_time (Raise URLError) None None
                    (fun _ => Some SMTPException) None [] no_mime_fault no_rank in
  exists w',
    run_forever "u" (Some ssl_config) scenario_env
      [[(RssUpdate, bad)]; [(DailyEmail, bad); (RssUpdate, scenario_env)]]
      scenario_world
    = (Ret tt, w').
Proof.
  assert (Hs : calm scenario_env).
  { repeat split; try discriminate. }
  assert (Hb : calm (mk_env scenario_time (Raise URLError) None None
                            (fun _ => Some SMTPException) None []
                            no_mime_fault no_rank)).
  { repeat split.
    - intros x [= <-]. reflexivity.
    - intros a x [= <-]. reflexivity.
    - intros m x [=]. }
  apply (run_forever_keeps_running "u" (Some ssl_config) scenario_env
           [[(RssUpdate, mk_env scenario_time (Raise URLError) None None
                                (fun _ => Some SMTPException) None []
                                no_mime_fault no_rank)];
            [(DailyEmail, mk_env scenario_time (Raise URLError) None None
                                 (fun _ => Some SMTPException) None []
                                 no_mime_fault no_rank);
             (RssUpdate, scenario_env)]]
           scenario_world eq_refl Hs).
  repeat first [apply List.Forall_cons | apply List.Forall_nil];
    cbn [snd]; assumption.
Defined.

(** A listing of [data/] that fails ends the loop: [run_daily_email] lists
    the directory outside of any [try]. *)
Example loop_listing_failure_raises :
  fst (loop "u" (Some ssl_config)
         [[(DailyEmail,
            mk_env scenario_time (Ret scenario_feed) None None no_fault
                   (Some FileNotFoundError) [] no_mime_fault no_rank)];
          [(RssUpdate, scenario_env)]]
         scenario_world)
  = Raise FileNotFoundError.
Proof. reflexivity. Qed.

(** ** The digest from collection to delivery *)

Lemma basename_no_slash n : has_slash n = false -> basename n = n.
Proof.
  destruct n as [|c n]; [reflexivity|].
  unfold has_slash. cbn [list_ascii_of_string existsb basename].
  intros H. apply orb_false_elim in H as [Hc Hn].
  rewrite Ascii.eqb_sym, Hc, Hn. reflexivity.
Qed.

Lemma basename_dir d n :
  has_slash n = false -> basename (d ++ String "/" n) = n.
Proof.
  intros Hn. induction d as [|c d IH].
  - change ("" ++ String "/" n) with (String "/" n).
    cbn [basename Ascii.eqb Bool.eqb]. now apply basename_no_slash.
  - change (String c d ++ String "/" n) with (String c (d ++ String "/" n)).
    cbn [basename]. destruct (Ascii.eqb c "/"); [exact IH|].
    replace (existsb (Ascii.eqb "/"%char)
               (list_ascii_of_string (d ++ String "/" n))) with true;
      [exact IH|].
    symmetry. rewrite chars_app, existsb_app. cbn. apply orb_true_r.
Qed.

Lemma basename_data n : has_slash n = false -> basename ("data/" ++ n) = n.
Proof. exact (basename_dir "data" n). Qed.

Lemma listdir_data_no_slash e w n :
  n ∈ listdir_data e w -> ~ In n (subdirs e) -> has_slash n = false.
Proof.
  unfold listdir_data. rewrite !elem_of_app. intros [H|[H|H]] Hd.
  - destruct (state_file w); [inversion H| | |];
      apply list_elem_of_singleton in H as ->; reflexivity.
  - apply list_elem_of_omap in H as (p & _ & Hn).
    destruct (strip_prefix "data/" p) as [n'|]; [|discriminate].
    destruct (has_slash n') eqn:Hs; [discriminate|]. now injection Hn as <-.
  - apply list_elem_of_In in H. contradiction.
Qed.

(** X17: the digest from collection to delivery.  With a configuration that
    has [from], [to], [smtp_server] and [smtp_port], a sender that is a
    string, recipients that can be joined, a [data/] that can be listed and
    has no directory named like a report of today, a message that the
    [email] package can flatten and a mail server that accepts every call,
    [run_daily_email] returns and has sent one message; its attachments are
    the reports of today, each under its file name without the directory and
    with the content of the file. *)
Theorem run_daily_email_delivers
    (kv : list (string * json)) (e : env) (w : world)
    (s : string) (to host port : json) (to_line : string) :
  dict_get kv "from" = Some (JStr s) ->
  dict_get kv "to" = Some to ->
  join_comma to = Ret to_line ->
  dict_get kv "smtp_server" = Some host ->
  dict_get kv "smtp_port" = Some port ->
  listdir_fault e = None ->
  no_report_dir e ->
  (forall a, smtp_fault e a = None) ->
  (forall m, mime_fault e m = None) ->
  let msg :=
    mk_email (JStr s) to_line
      ("CVE Vulnerability Report - " ++ date_str (now e))
      (email_body (todays_reports e w))
      (map (fun p => (basename p, default "" (files w !! p)))
         (todays_reports e w)) in
  fst (run_daily_email (Some (JObj kv)) e w) = Ret tt
  /\ In (Sendmail (JStr s) to msg)
        (wire (snd (run_daily_email (Some (JObj kv)) e w)))
  /\ Forall (fun p => "data/" ++ basename p = p
                      /\ is_Some (files w !! p))
            (todays_reports e w).
Proof.
  intros Hfrom Hto Hjoin Hhost Hport Hl Hd Hsmtp Hmime msg.
  rewrite (run_daily_email_unfold _ _ _ Hl).
  pose proof (todays_reports_readable e w Hd) as Hfiles.
  destruct (send_email_ok kv e (todays_reports e w)
              (mk_world (pull_count w) (files w) (state_file w)
                        (log w ++ [(INFO, StartingDailyEmail)]) (wire w))
              s to host port to_line Hfrom Hto Hjoin Hhost Hport
              Hfiles Hsmtp (Hmime _)) as (Hret & Hin & _).
  cbn [files] in Hin.
  destruct (send_email (Some (JObj kv)) e (todays_reports e w)
              (mk_world (pull_count w) (files w) (state_file w)
                        (log w ++ [(INFO, StartingDailyEmail)]) (wire w)))
    as [[b|x] w1]; cbn [fst snd] in *; [|discriminate].
  split; [reflexivity|]. split; [exact Hin|].
  apply List.Forall_forall. intros p Hp.
  split; [|exact (proj2 (proj1 (List.Forall_forall _ _) Hfiles p Hp))].
  apply todays_reports_spec in Hp as (n & -> & Hn & H1 & H2).
  rewrite (basename_data n); [reflexivity|].
  apply (listdir_data_no_slash e w n Hn).
  intros Hin'. specialize (Hd n Hin'). rewrite H1, H2 in Hd. discriminate.
Qed.

Lemma run_daily_email_delivers_witness :
  let w := snd (generate_markdown "u" scenario_env (Some scenario_feed)
                  scenario_world) in
  fst (run_daily_email (Some ssl_config) scenario_env w) = Ret tt
  /\ todays_reports scenario_env w = ["data/2024-01-01-000005-pull6.md"].
Proof.
  split; [|vm_compute; reflexivity].
  refine (proj1 (run_daily_email_delivers
           [("from", JStr "monitor@example.org");
            ("to", JArr [JStr "team@example.org"]);
            ("smtp_server", JStr "mail.example.org");
            ("smtp_port", JInt 465);
            ("username", JStr "monitor");
            ("password", JStr "secret")]
           scenario_env
           (snd (generate_markdown "u" scenario_env (Some scenario_feed)
                   scenario_world))
           "monitor@example.org" (JArr [JStr "team@example.org"])
           (JStr "mail.example.org") (JInt 465) "team@example.org"
           eq_refl eq_refl eq_refl eq_refl eq_refl eq_refl
           (fun d (H : In d []) => match H with end)
           (fun _ => eq_refl) (fun _ => eq_refl))).
Defined.

(** X18: when the cycle returns the empty list, nothing was written: the
    counter, the files and the state file are as before. *)
Theorem run_rss_update_returns_nothing
    (url : string) (e : env) (w w' : world) :
  run_rss_update url e w = (Ret [], w') ->
  pull_count w' = pull_count w /\ files w' = files w
  /\ state_file w' = state_file w.
Proof.
  destruct w as [pc fs st lg wr]. unfold run_rss_update, fetch_rss_feed. run.
  destruct (parse_result e) as [f|x]; run.
  2: { destruct (is_Exception x); run; [|discriminate].
       intros [= <-]. auto. }
  destruct (bozo f); run; [intros [= <-]; auto|].
  unfold generate_markdown, no_entries.
  destruct (entries f); run; [intros [= <-]; auto|].
  destruct (add_one pc); run; [|discriminate].
  destruct (report_write e) as [[x|[p|] x]|]; run; try discriminate.
  destruct (state_write e) as [[x|[p|] x]|]; run; discriminate.
Qed.

Lemma run_rss_update_returns_nothing_witness :
  let e := quiet_env scenario_time (Raise URLError) in
  pull_count (snd (run_rss_update "u" e scenario_world)) = JInt 5.
Proof.
  apply (run_rss_update_returns_nothing "u"
           (quiet_env scenario_time (Raise URLError))
           scenario_world
           (snd (run_rss_update "u"
                   (quiet_env scenario_time (Raise URLError))
                   scenario_world))
           eq_refl).
Defined.

(** X19: a configuration that is absent or empty switches the digest off.
    With [None], or with a value that is false in a condition (an empty
    object, an empty list or string, null, 0, false), [send_email] returns
    [False] after one warning and makes no call on [smtplib]. *)
Theorem send_email_not_configured
    (cfg : option json) (e : env) (report_files : list string) (w : world) :
  cfg = None \/ (exists v, cfg = Some v /\ truthy v = false) ->
  send_email cfg e report_files w
  = (Ret false, logged w [(WARNING, EmailNotConfigured)]).
Proof.
  destruct w as [pc fs st lg wr]. unfold send_email.
  intros [->|(v & -> & ->)]; reflexivity.
Qed.

Lemma send_email_not_configured_witness :
  send_email (Some (JObj [])) scenario_env [] scenario_world
  = (Ret false, logged scenario_world [(WARNING, EmailNotConfigured)]).
Proof.
  apply (send_email_not_configured (Some (JObj [])) scenario_env []
           scenario_world).
  right. exists (JObj []). split; reflexivity.
Defined.



(** The three paths of the transport, evaluated: port 465; another port with
    [use_tls]; another port without it and without credentials.  A port
    given as the float [465.0] equals 465, one given as the string ["465"]
    does not. *)
Example send_email_paths :
  let base := [("from", JStr "monitor@example.org");
               ("to", JArr [JStr "team@example.org"]);
               ("smtp_server", JStr "mail.example.org")] in
  let calls cfg :=
    map (fun a => match a with
                  | Sendmail _ _ _ => "sendmail"
                  | SMTP_SSL _ _ => "SMTP_SSL"
                  | SMTP _ _ => "SMTP"
                  | Starttls => "starttls"
                  | Login _ _ => "login"
                  | Quit => "quit"
                  end)
        (wire (snd (send_email (Some (JObj cfg)) scenario_env []
                      scenario_world))) in
  calls (base ++ [("smtp_port", JInt 465); ("use_tls", JBool true)])%list
  = ["SMTP_SSL"; "sendmail"; "quit"]
  /\ calls (base ++ [("smtp_port", JFloat 465%float)])%list
     = ["SMTP_SSL"; "sendmail"; "quit"]
  /\ calls (base ++ [("smtp_port", JStr "465")])%list
     = ["SMTP"; "sendmail"; "quit"]
  /\ calls (base ++ [("smtp_port", JInt 587); ("use_tls", JBool true);
                     ("username", JStr "monitor");
                     ("password", JStr "secret")])%list
     = ["SMTP"; "starttls"; "login"; "sendmail"; "quit"]
  /\ calls (base ++ [("smtp_port", JInt 25); ("use_tls", JBool false);
                     ("username", JStr "monitor")])%list
     = ["SMTP"; "sendmail"; "quit"].
Proof. vm_compute. repeat split. Qed.
